(** * NASA APOD ETL pipeline: a shallow embedding of [nasa_apod_etl_dag.py]

    The development follows the source file top to bottom: the Python
    values and exceptions the tasks exchange, the four task callables
    ([extract_apod_data], [transform_apod_data], [load_to_postgres],
    [load_to_csv]), the shell command of [git_task], and the DAG
    ([default_args], the operators, the [>>] chain) together with the
    scheduling rules the DAG relies on.  All definitions come first; the
    theorems about them follow in the second half of the file. *)

From stdpp Require Import gmap strings list sorting pretty.
From Stdlib Require Import ZArith.

Local Open Scope string_scope.

(** ** Python values, exceptions and task results *)

Module Py.

(** The scalar values a decoded JSON payload puts in a dictionary.
    [VNone] is JSON [null]; [VNaN] is the float the decoder yields for the
    literal [NaN].  [VInt] stands for any number: no check of the pipeline
    distinguishes one number from another. *)
Inductive value :=
| VNone
| VNaN
| VBool (b : bool)
| VInt (z : Z)
| VStr (s : string).

#[global] Instance value_eq_dec : EqDecision value.
Proof. solve_decision. Defined.

(** A [dict] with string keys, as [response.json()] returns it. *)
Abbreviation dict := (gmap string value).

(** [d.get(k)] and [d.get(k, dflt)] *)
Definition get (d : dict) (k : string) : value := default VNone (d !! k).
Definition get_default (d : dict) (k : string) (dflt : value) : value :=
  default dflt (d !! k).

(** The exception classes the tasks raise or catch.  The first five belong
    to [requests.exceptions]; there [ConnectionError], [Timeout],
    [HTTPError] and [JSONDecodeError] (through [InvalidJSONError], since
    requests 2.27) all derive from [RequestException]. *)
Inductive exc_class :=
| RequestException
| ConnectionError
| Timeout
| HTTPError
| JSONDecodeError
| ValueError
| AssertionError
| Exception.

#[global] Instance exc_class_eq_dec : EqDecision exc_class.
Proof. solve_decision. Defined.

(** An exception object: its class and [str(e)]. *)
Record exn := mk_exn { exn_class : exc_class; str : string }.

#[global] Instance exn_eq_dec : EqDecision exn.
Proof. solve_decision. Defined.

(** [isinstance(e, requests.RequestException)] *)
Definition is_RequestException (e : exn) : bool :=
  match exn_class e with
  | RequestException | ConnectionError | Timeout | HTTPError
  | JSONDecodeError => true
  | ValueError | AssertionError | Exception => false
  end.

(** What running a piece of Python yields: a value or a raised exception. *)
Inductive outcome (A : Type) :=
| Return (a : A)
| Raise (e : exn).
Arguments Return {A} a.
Arguments Raise {A} e.

Definition raised {A} (o : outcome A) : bool :=
  match o with Return _ => false | Raise _ => true end.

#[global] Instance outcome_ret : MRet outcome := fun A a => Return a.
#[global] Instance outcome_bind : MBind outcome := fun A B k m =>
  match m with
  | Return a => k a
  | Raise e => Raise e
  end.

(** [assert cond, msg] *)
Definition assert_ (cond : bool) (msg : string) : outcome unit :=
  if cond then Return tt else Raise (mk_exn AssertionError msg).

End Py.
Import Py.

(** ** Task 1: [extract_apod_data] *)

Module Extract.

(** What the function does to the outside world, in order. *)
Inductive event :=
| Request (n : nat)      (* the [n]-th call of [requests.get], from 0 *)
| Sleep (secs : nat).    (* [time.sleep(secs)] *)

#[global] Instance event_eq_dec : EqDecision event.
Proof. solve_decision. Defined.

(** An HTTP response as far as the function looks at it: the status line
    and what [response.json()] does, return the decoded payload or raise. *)
Record response := mk_response {
  status_code : nat;
  reason : string;
  url : string;
  json_result : exn + dict
}.

(** One call of [requests.get(url, params=params, timeout=10)]: it raises
    (no connection, timeout, ...) or returns a response. *)
Inductive reply :=
| GetRaises (e : exn)
| GetReturns (r : response).

(** The remote side: the reply to the [n]-th request of the run. *)
Definition world := nat -> reply.

(** State threaded through the function: how many requests went out and
    the events so far. *)
Record net := mk_net { sent : nat; trace : list event }.

Definition io (A : Type) : Type := net -> outcome A * net.

#[global] Instance io_ret : MRet io := fun A a s => (Return a, s).
#[global] Instance io_bind : MBind io := fun A B k m s =>
  match m s with
  | (Return a, s') => k a s'
  | (Raise e, s') => (Raise e, s')
  end.

Definition raise {A} (e : exn) : io A := fun s => (Raise e, s).

(** [try: m  except Exception-class as e: h e]; [h] decides by the class
    whether the clause matches and re-raises otherwise. *)
Definition try_except {A} (m : io A) (h : exn -> io A) : io A := fun s =>
  match m s with
  | (Return a, s') => (Return a, s')
  | (Raise e, s') => h e s'
  end.

Definition requests_get (w : world) : io response := fun s =>
  let s' := mk_net (S (sent s)) (trace s ++ [Request (sent s)]) in
  match w (sent s) with
  | GetRaises e => (Raise e, s')
  | GetReturns r => (Return r, s')
  end.

Definition time_sleep (secs : nat) : io unit := fun s =>
  (Return tt, mk_net (sent s) (trace s ++ [Sleep secs])).

(** [response.raise_for_status()]: [HTTPError] for 4xx and 5xx. *)
Definition http_error (r : response) : exn :=
  let kind := if bool_decide (status_code r < 500)
              then " Client Error: " else " Server Error: " in
  mk_exn HTTPError
    (pretty (status_code r) ++ kind ++ reason r ++ " for url: " ++ url r).

Definition raise_for_status (r : response) : io unit :=
  if bool_decide (400 <= status_code r < 600) then raise (http_error r)
  else mret tt.

(** [response.json()] *)
Definition json (r : response) : io dict :=
  match json_result r with
  | inl e => raise e
  | inr data => mret data
  end.

Definition max_retries : nat := 3.

(** The message of the exception raised once the attempts are used up. *)
Definition exhausted (e : exn) : exn :=
  mk_exn Exception
    ("Failed to fetch APOD data after " ++ pretty max_retries
       ++ " attempts: " ++ str e).

(** The body of the [for] loop.  [Some data] is [return data]; [None] means
    the iteration ended and the loop goes on. *)
Definition attempt_body (w : world) (attempt : nat) : io (option dict) :=
  try_except
    (response ← requests_get w;
     _ ← raise_for_status response;
     data ← json response;
     mret (Some data))
    (fun e =>
       if is_RequestException e then
         if bool_decide (attempt = max_retries - 1) then raise (exhausted e)
         else
           let wait_time := 2 ^ attempt in
           _ ← time_sleep wait_time;
           mret None
       else raise e).

(** [for attempt in attempts: ...]; falling off the end of the function
    returns [None]. *)
Fixpoint for_attempt (w : world) (attempts : list nat) : io (option dict) :=
  match attempts with
  | [] => mret None
  | attempt :: rest =>
      r ← attempt_body w attempt;
      match r with
      | Some data => mret (Some data)
      | None => for_attempt w rest
      end
  end.

Definition extract_apod_data (w : world) : io (option dict) :=
  for_attempt w (seq 0 max_retries).

(** A run of the task from a quiet network. *)
Definition run (w : world) : outcome (option dict) * net :=
  extract_apod_data w (mk_net 0 []).

(** *** Vocabulary of the properties *)

(** The replies of the remote side, by what the [try] block makes of them. *)
Definition transport_failure (rp : reply) (e : exn) : Prop :=
  rp = GetRaises e ∧ is_RequestException e = true.

Definition http_failure (rp : reply) (e : exn) : Prop :=
  ∃ r, rp = GetReturns r ∧ 400 <= status_code r < 600 ∧ e = http_error r.

Definition malformed (rp : reply) (e : exn) : Prop :=
  ∃ r, rp = GetReturns r ∧ ¬ 400 <= status_code r < 600
       ∧ json_result r = inl e.

Definition succeeds (rp : reply) (data : dict) : Prop :=
  ∃ r, rp = GetReturns r ∧ ¬ 400 <= status_code r < 600
       ∧ json_result r = inr data.

Definition fails (rp : reply) (e : exn) : Prop :=
  transport_failure rp e ∨ http_failure rp e.

(** Every way the [try] block raises: in [requests.get], in
    [raise_for_status] or in [response.json()]. *)
Inductive try_raises : reply -> exn -> Prop :=
| get_raises e : try_raises (GetRaises e) e
| status_raises r :
    400 <= status_code r < 600 -> try_raises (GetReturns r) (http_error r)
| json_raises r e :
    ¬ 400 <= status_code r < 600 -> json_result r = inl e ->
    try_raises (GetReturns r) e.

Definition after_request (s : net) : net :=
  mk_net (S (sent s)) (trace s ++ [Request (sent s)]).

Definition after_sleep (secs : nat) (s : net) : net :=
  mk_net (sent s) (trace s ++ [Sleep secs]).

(** The events of a run whose last request is number [k]: every earlier
    request [i] is followed by a sleep of [2 ^ i] seconds. *)
Definition trace_upto (k : nat) : list event :=
  (flat_map (fun i => [Request i; Sleep (2 ^ i)]) (seq 0 k) ++ [Request k])%list.

Definition is_request (ev : event) : bool :=
  match ev with Request _ => true | Sleep _ => false end.

Definition requests_issued (t : list event) : nat :=
  length (filter (fun ev => is_request ev = true) t).

(** Two remote sides that differ only in how a failure reaches the [try]
    block: where [w] answers with a body that [response.json()] rejects
    with a [RequestException], [w'] lets [requests.get] raise it. *)
Definition same_but_malformed (w w' : world) : Prop :=
  ∀ n, w n = w' n
       ∨ ∃ e, malformed (w n) e ∧ is_RequestException e = true
              ∧ w' n = GetRaises e.

End Extract.

(** ** Task 2: [transform_apod_data] *)

Module Transform.

(** The dictionary the task returns; its eight keys are fixed, so it is a
    record here. *)
Record transformed_data := mk_transformed {
  date : value;
  title : value;
  explanation : value;
  url : value;
  hdurl : value;
  media_type : value;
  copyright : value;
  extracted_at : value
}.

#[global] Instance transformed_data_eq_dec : EqDecision transformed_data.
Proof. solve_decision. Defined.

(** [Series.isna()] on the one-row frame: [None] and [NaN] are missing,
    every string (the empty one too) is not. *)
Definition isna (v : value) : bool :=
  match v with
  | VNone | VNaN => true
  | VBool _ | VInt _ | VStr _ => false
  end.

(** [Series.isin(values)] on the one-row frame. *)
Definition isin (v : value) (values : list value) : bool :=
  bool_decide (v ∈ values).

(** "Select and transform fields"; [now] is [datetime.now().isoformat()]. *)
Definition select_fields (raw_data : dict) (now : string) : transformed_data :=
  {| date := get raw_data "date";
     title := get_default raw_data "title" (VStr "N/A");
     explanation := get_default raw_data "explanation" (VStr "N/A");
     url := get_default raw_data "url" (VStr "N/A");
     hdurl := get_default raw_data "hdurl" (VStr "N/A");
     media_type := get_default raw_data "media_type" (VStr "image");
     copyright := get_default raw_data "copyright" (VStr "Public Domain");
     extracted_at := VStr now |}.

(** "Data quality checks": the three [assert] statements, in order. *)
Definition quality_checks (df : transformed_data) : outcome unit :=
  _ ← assert_ (negb (isna (date df))) "Date field cannot be null";
  _ ← assert_ (negb (isna (title df))) "Title field cannot be null";
  assert_ (isin (media_type df) [VStr "image"; VStr "video"])
    "Invalid media type".

(** [xcom] is what [ti.xcom_pull(task_ids='extract_data')] hands over:
    nothing, or the dictionary the extract task returned. *)
Definition transform_apod_data (xcom : option dict) (now : string)
  : outcome transformed_data :=
  match xcom with
  | None => Raise (mk_exn ValueError "No data received from extraction task")
  | Some raw_data =>
      if bool_decide (raw_data = ∅) then
        Raise (mk_exn ValueError "No data received from extraction task")
      else
        let transformed := select_fields raw_data now in
        _ ← quality_checks transformed;
        mret transformed
  end.

End Transform.

(** ** Task 3a: [load_to_postgres] *)

Module Sink.

(** A row of the table [apod_data]: the column [date] holds ISO date text
    ("2025-11-13") and is the key. *)
Record row := mk_row {
  date : string;
  title : string;
  explanation : string;
  url : string;
  hdurl : string;
  media_type : string;
  copyright : string;
  extracted_at : string
}.

#[global] Instance row_eq_dec : EqDecision row.
Proof. solve_decision. Defined.

(** *** PostgreSQL *)

(** [DO UPDATE SET title = EXCLUDED.title, ...]: the seven columns other
    than the key are taken from the proposed row. *)
Definition do_update (existing excluded : row) : row :=
  {| date := date existing;
     title := title excluded;
     explanation := explanation excluded;
     url := url excluded;
     hdurl := hdurl excluded;
     media_type := media_type excluded;
     copyright := copyright excluded;
     extracted_at := extracted_at excluded |}.

(** [INSERT INTO apod_data ... VALUES ... ON CONFLICT (date) DO UPDATE]
    on a table whose column [date] carries the unique index the
    [ON CONFLICT] clause names. *)
Fixpoint insert_on_conflict_date (excluded : row) (apod_data : list row)
  : list row :=
  match apod_data with
  | [] => [excluded]
  | existing :: rest =>
      if decide (date existing = date excluded)
      then do_update existing excluded :: rest
      else existing :: insert_on_conflict_date excluded rest
  end.

(** [SELECT COUNT( * ) FROM apod_data WHERE date = %s] *)
Definition select_count (d : string) (apod_data : list row) : nat :=
  length (filter (fun r => date r = d) apod_data).

(** The database calls of the [try] block, in order. *)
Inductive db_step :=
| Connect                             (* [psycopg2.connect] *)
| OpenCursor                          (* [conn.cursor()] *)
| Execute                             (* [cursor.execute(query, ...)] *)
| Commit (server_committed : bool)    (* [conn.commit()]: whether the server
                                         had committed when the call raised *)
| Verify.                             (* the [SELECT COUNT] and [fetchone]
                                         after the commit *)

(** What goes wrong in one try of the task: the first call of the [try]
    block that raises, with what it raises; what [conn.rollback()] raises
    in the handler, when it raises (it does on a lost connection); what
    [cursor.close()] or [conn.close()] raises in the [finally] block, when
    one of them raises. *)
Record db_fault := mk_db_fault {
  in_try : option (db_step * exn);
  in_rollback : option exn;
  in_close : option exn
}.

Definition postgres_failed (e : exn) : exn :=
  mk_exn Exception ("PostgreSQL load failed: " ++ str e).

(** Whether the statement of this try is committed. *)
Definition committed (f : db_fault) : bool :=
  match in_try f with
  | None => true
  | Some (Verify, _) => true
  | Some (Commit server_committed, _) => server_committed
  | Some (Connect, _) | Some (OpenCursor, _) | Some (Execute, _) => false
  end.

(** What one try raises.  When [connect] raises, [conn] is still [None]:
    the handler does not roll back and the [finally] block closes nothing.
    Otherwise the handler calls [conn.rollback()] before it raises the
    wrapped exception, so that an exception of the rollback takes its
    place; and an exception of the [finally] block takes the place of
    whatever was on its way out. *)
Definition raised_by (f : db_fault) : option exn :=
  match in_try f with
  | None => in_close f
  | Some (Connect, e) => Some (postgres_failed e)
  | Some (_, e) =>
      match in_close f, in_rollback f with
      | Some e_close, _ => Some e_close
      | None, Some e_rollback => Some e_rollback
      | None, None => Some (postgres_failed e)
      end
  end.

(** The task on the committed table. *)
Definition load_to_postgres (fault : option db_fault) (data : row)
    (apod_data : list row) : outcome unit * list row :=
  match fault with
  | None => (Return tt, insert_on_conflict_date data apod_data)
  | Some f =>
      (match raised_by f with
       | Some e => Raise e
       | None => Return tt
       end,
       if committed f then insert_on_conflict_date data apod_data
       else apod_data)
  end.

End Sink.

(** ** Task 3b: [load_to_csv] *)

Module Csv.

(** A [DataFrame]: its column labels and its rows.  A row maps column
    labels to cells; a cell the row does not give is missing. *)
Record frame := mk_frame { columns : list string; rows : list dict }.

Definition cell (r : dict) (c : string) : value := default VNaN (r !! c).

Definition record_columns : list string :=
  ["date"; "title"; "explanation"; "url"; "hdurl"; "media_type";
   "copyright"; "extracted_at"].

(** The dictionary the task pulls from XCom: what the transform task
    returned. *)
Definition record_dict (data : Transform.transformed_data) : dict :=
  {[ "date" := Transform.date data;
     "title" := Transform.title data;
     "explanation" := Transform.explanation data;
     "url" := Transform.url data;
     "hdurl" := Transform.hdurl data;
     "media_type" := Transform.media_type data;
     "copyright" := Transform.copyright data;
     "extracted_at" := Transform.extracted_at data ]}.

(** [pd.DataFrame([data])] *)
Definition DataFrame (data : Transform.transformed_data) : frame :=
  mk_frame record_columns [record_dict data].

(** What the file system and [pd.read_csv] answer: there is no file at
    [csv_path]; there is one and [pd.read_csv] raises; there is one and
    [pd.read_csv] returns a frame. *)
Inductive csv_read :=
| NoFile
| ReadRaises (e : exn)
| ReadReturns (existing_df : frame).

(** A number as Python compares it; [True] and [False] count as 1 and 0. *)
Definition number (v : value) : option Z :=
  match v with
  | VInt z => Some z
  | VBool b => Some (if b then 1 else 0)%Z
  | VNone | VNaN | VStr _ => None
  end.

Definition is_text (v : value) : bool :=
  match v with VStr _ => true | _ => false end.

Definition is_number (v : value) : bool :=
  match number v with Some _ => true | None => false end.

(** [a == b] on two values that are not missing. *)
Definition py_eq (a b : value) : bool :=
  match a, b with
  | VStr s, VStr s' => bool_decide (s = s')
  | _, _ =>
      match number a, number b with
      | Some x, Some y => bool_decide (x = y)
      | _, _ => false
      end
  end.

(** One cell of [existing_df['date'] != d]: a missing value differs from
    everything. *)
Definition ne (v d : value) : bool :=
  Transform.isna v || Transform.isna d || negb (py_eq v d).

(** The order [sort_values] puts the dates that are not missing in: texts
    by code point, numbers by size.  A text never meets a number here (the
    sort raises first, see [mixed]); the clauses for that case and for
    missing dates only make the relation total. *)
Definition key_leb (a b : value) : bool :=
  match a, b with
  | VStr s, VStr s' => String.leb s s'
  | _, _ =>
      match number a, number b with
      | Some x, Some y => (x <=? y)%Z
      | Some _, None => true
      | None, Some _ => false
      | None, None =>
          match a, b with
          | VStr _, _ => true
          | _, VStr _ => false
          | _, _ => true
          end
      end
  end.

Definition date_le (x y : dict) : Prop :=
  key_leb (cell x "date") (cell y "date") = true.

#[global] Instance date_le_dec : RelDecision date_le.
Proof. intros x y. unfold date_le. apply _. Defined.

(** A column in which a text and a number would have to be compared:
    Python has no order between them and the sort raises [TypeError]. *)
Definition mixed (dates : list value) : bool :=
  existsb is_text dates && existsb is_number dates.

(** [df.sort_values('date', ascending=False)] on the rows.  The rows with
    a missing date go last, in the order they came in.  For the others
    pandas reverses the rows, sorts them ascending and reverses the result;
    which of two rows with the same date comes first is left to the sorting
    algorithm it delegates to, and nothing below depends on it. *)
Definition sort_values_date_descending (df : list dict) : list dict :=
  let dated r := Transform.isna (cell r "date") = false in
  (reverse (merge_sort date_le (reverse (filter dated df)))
     ++ filter (fun r => ¬ dated r) df)%list.

(** [pd.concat([existing_df, df], ignore_index=True)]: the columns of the
    first frame, then those only the second has; the rows of the first,
    then those of the second. *)
Definition concat (df1 df2 : frame) : frame :=
  mk_frame
    (columns df1 ++ filter (fun c => c ∉ columns df1) (columns df2))
    (rows df1 ++ rows df2).

(** What can go wrong when the frame is written: [to_csv] cannot open the
    file; it raises while it writes; or the look at the file after the
    write raises. *)
Inductive io_fault :=
| OpenFails (e : exn)
| WriteFails (e : exn)
| StatFails (e : exn).

(** What a try does to the file at [csv_path]: nothing; it replaces it by
    the frame written out; it leaves it cut short. *)
Inductive disk :=
| Untouched
| Wrote (df : frame)
| Damaged.

(** [except Exception as e: raise Exception(f"CSV load failed: ...")] *)
Definition csv_failed (text : string) : exn :=
  mk_exn Exception ("CSV load failed: " ++ text).

(** [df.to_csv(csv_path, index=False)] and the lines after it. *)
Definition to_csv (df : frame) (fault : option io_fault)
  : outcome unit * disk :=
  match fault with
  | None => (Return tt, Wrote df)
  | Some (OpenFails e) => (Raise (csv_failed (str e)), Untouched)
  | Some (WriteFails e) => (Raise (csv_failed (str e)), Damaged)
  | Some (StatFails e) => (Raise (csv_failed (str e)), Wrote df)
  end.

(** One try of the task.  [type_error] is the text of the [TypeError] the
    sort raises when it has to compare a text with a number. *)
Definition load_to_csv (data : Transform.transformed_data) (file : csv_read)
    (type_error : string) (fault : option io_fault) : outcome unit * disk :=
  let df := DataFrame data in
  match file with
  | NoFile => to_csv df fault
  | ReadRaises e => (Raise (csv_failed (str e)), Untouched)
  | ReadReturns existing_df =>
      if bool_decide ("date" ∈ columns existing_df) then
        let existing_df :=
          mk_frame (columns existing_df)
            (filter (fun r => ne (cell r "date") (Transform.date data) = true)
               (rows existing_df)) in
        let df := concat existing_df df in
        if mixed ((fun r => cell r "date") <$> rows df)
        then (Raise (csv_failed type_error), Untouched)
        else
          let df := mk_frame (columns df)
                      (sort_values_date_descending (rows df)) in
          to_csv df fault
      else (Raise (csv_failed "'date'"), Untouched)
  end.

(** *** Vocabulary of the properties *)

(** The markers [pd.read_csv] reads as a missing value by default. *)
Definition na_values : list string :=
  [""; "#N/A"; "#N/A N/A"; "#NA"; "-1.#IND"; "-1.#QNAN"; "-NaN"; "-nan";
   "1.#IND"; "1.#QNAN"; "<NA>"; "N/A"; "NA"; "NULL"; "NaN"; "None"; "n/a";
   "nan"; "null"].

(** The field [to_csv] writes for a cell, quoting apart: nothing for a
    missing value. *)
Definition field (v : value) : string :=
  match v with
  | VNone | VNaN => ""
  | VBool b => if b then "True" else "False"
  | VInt z => pretty z
  | VStr s => s
  end.

(** A cell that the next [pd.read_csv] reads as missing. *)
Definition reads_as_missing (v : value) : bool :=
  bool_decide (field v ∈ na_values).

(** The dates of a frame are all texts. *)
Definition text_dates (df : list dict) : Prop :=
  ∀ r, r ∈ df -> ∃ s, cell r "date" = VStr s.

(** The dates of the rows. *)
Definition dates (df : list dict) : list value :=
  (fun r => cell r "date") <$> df.

(** Two rows with text dates of which the first is not the older one. *)
Definition not_older (x y : dict) : Prop :=
  ∃ s t, cell x "date" = VStr s ∧ cell y "date" = VStr t
         ∧ String.leb t s = true.

End Csv.

(** ** From the transform task to the two load tasks *)

Module Handover.



End Handover.

(** ** Task 5: the shell command of [git_task] *)

Module Bash.

(** The commands the script is made of. *)
Inductive command :=
| Cd (dir : string)
| Echo (text : string)
| True_
| GitConfig (args : list string)
| GitInit
| GitStatus
| GitAdd (paths : list string)
| GitCommit (message : string)
| GitLog (args : list string).

(** [&&] and [||]: in a shell list they have the same precedence and
    associate to the left. *)
Inductive connective := AndIf | OrIf.

(** A list [c0 op1 c1 op2 c2 ...]. *)
Definition and_or_list : Type := command * list (connective * command).

(** The Git repository as far as the script can change it: whether the
    files named by [git add] differ from what is staged, whether the index
    differs from the last commit, and the commit log, newest first. *)
Record repo := mk_repo {
  worktree_changed : bool;
  index_changed : bool;
  log : list string
}.

(** The machine the script runs on: whether the command at a given
    position of the list fails for a reason of its own (no such directory,
    no repository, a missing path, a lock). *)
Definition machine := nat -> bool.

(** One command: its exit status and the repository it leaves.  [echo] and
    [true] are builtins that succeed.  [git commit] exits with 1 and
    records nothing when the index holds no change. *)
Definition exec (breaks : bool) (c : command) (r : repo) : nat * repo :=
  match c with
  | Echo _ | True_ => (0, r)
  | Cd _ => (if breaks then 1 else 0, r)
  | GitConfig _ | GitInit | GitStatus | GitLog _ =>
      (if breaks then 128 else 0, r)
  | GitAdd _ =>
      if breaks then (128, r)
      else (0, mk_repo false (index_changed r || worktree_changed r) (log r))
  | GitCommit message =>
      if breaks then (128, r)
      else if index_changed r
           then (0, mk_repo (worktree_changed r) false (message :: log r))
           else (1, r)
  end.

(** The rest of a list, from position [pos], with the exit status so far:
    [&& c] runs [c] after a zero status, [|| c] after a non-zero one, and a
    command that does not run leaves the status as it is. *)
Fixpoint and_or (m : machine) (pos : nat) (rest : list (connective * command))
    (status : nat) (r : repo) : nat * repo :=
  match rest with
  | [] => (status, r)
  | (op, c) :: rest' =>
      let runs := match op with
                  | AndIf => bool_decide (status = 0)
                  | OrIf => negb (bool_decide (status = 0))
                  end in
      if runs then
        let '(status', r') := exec (m pos) c r in
        and_or m (S pos) rest' status' r'
      else and_or m (S pos) rest' status r
  end.

Definition run (m : machine) (script : and_or_list) (r : repo) : nat * repo :=
  let '(status, r') := exec (m 0) (fst script) r in
  and_or m 1 (snd script) status r'.

(** [bash_command] of [git_task]; the line continuations join it into one
    list.  [now] is the text [$(date +%Y-%m-%d_%H-%M-%S)] expands to. *)
Definition git_task_bash_command (now : string) : and_or_list :=
  (Cd "/opt/airflow",
   [ (AndIf, Echo "Configuring Git...");
     (AndIf, GitConfig ["--global"; "user.name"; "MLOps Pipeline"]);
     (AndIf, GitConfig ["--global"; "user.email"; "mlops@example.com"]);
     (AndIf, GitConfig ["--global"; "--add"; "safe.directory"; "/opt/airflow"]);
     (AndIf, Echo "Initializing Git repository if needed...");
     (AndIf, GitInit);
     (OrIf, Echo "Git already initialized");
     (AndIf, Echo "Current Git status:");
     (AndIf, GitStatus);
     (OrIf, True_);
     (AndIf, Echo "Staging DVC files...");
     (AndIf, GitAdd ["data/apod_data.csv.dvc"; "data/.gitignore";
                     ".dvc/config"; ".dvc/.gitignore"]);
     (OrIf, True_);
     (AndIf, Echo "Committing changes...");
     (AndIf, GitCommit ("Update APOD data version - " ++ now));
     (OrIf, Echo "No changes to commit");
     (AndIf, Echo "Latest Git log:");
     (AndIf, GitLog ["--oneline"; "-3"]);
     (OrIf, True_);
     (AndIf, Echo "Git commit completed successfully") ]).

(** [BashOperator]: the task succeeds when the command exits with 0. *)
Definition bash_operator_succeeds (status : nat) : bool :=
  bool_decide (status = 0).

End Bash.

(** ** The DAG *)

Module Dag.

(** [default_args]; durations in seconds. *)
Record args := mk_args {
  owner : string;
  depends_on_past : bool;
  email_on_failure : bool;
  email_on_retry : bool;
  retries : nat;
  retry_delay : nat;
  execution_timeout : nat
}.

Definition default_args : args :=
  {| owner := "mlops-team";
     depends_on_past := false;
     email_on_failure := false;
     email_on_retry := false;
     retries := 2;
     retry_delay := 5 * 60;
     execution_timeout := 30 * 60 |}.

(** The six operators, named as the module names them. *)
Inductive task :=
| extract_task
| transform_task
| load_postgres_task
| load_csv_task
| dvc_task
| git_task.

#[global] Instance task_eq_dec : EqDecision task.
Proof. solve_decision. Defined.

Definition task_id (t : task) : string :=
  match t with
  | extract_task => "extract_data"
  | transform_task => "transform_data"
  | load_postgres_task => "load_to_postgres"
  | load_csv_task => "load_to_csv"
  | dvc_task => "version_data_with_dvc"
  | git_task => "commit_to_git"
  end.

(** The [retries] argument an operator is constructed with; none of the
    six passes one. *)
Definition own_retries (t : task) : option nat := None.

(** An operator takes from [default_args] what it is not given itself. *)
Definition task_retries (t : task) : nat :=
  default (retries default_args) (own_retries t).

(** [xs >> ys]: every task of [xs] becomes upstream of every task of [ys]. *)
Definition rshift (xs ys : list task) : list (task * task) :=
  x ← xs; y ← ys; [(x, y)].

(** A chain [a >> b >> c >> ...]: each [>>] returns its right operand. *)
Fixpoint chain (groups : list (list task)) : list (task * task) :=
  match groups with
  | xs :: ((ys :: _) as rest) => (rshift xs ys ++ chain rest)%list
  | _ => []
  end.

(** [extract_task >> transform_task >> [load_postgres_task, load_csv_task]
     >> dvc_task >> git_task] *)
Definition edges : list (task * task) :=
  chain [ [extract_task]; [transform_task];
          [load_postgres_task; load_csv_task]; [dvc_task]; [git_task] ].

Definition upstream (t : task) : list task :=
  (filter (fun e => snd e = t) edges).*1.

Definition downstream (t : task) : list task :=
  (filter (fun e => fst e = t) edges).*2.

Definition tasks : list task :=
  [extract_task; transform_task; load_postgres_task; load_csv_task;
   dvc_task; git_task].

(** The state a task instance ends a run in.  [upstream_failed] is the
    scheduler's state for a task it never starts because a task upstream
    of it did not succeed. *)
Inductive state :=
| success
| failed
| upstream_failed.

#[global] Instance state_eq_dec : EqDecision state.
Proof. solve_decision. Defined.

(** What the tasks do when they are run: whether try number [n] (from 1)
    of a task succeeds. *)
Definition behaviour := task -> nat -> bool.

(** A task instance that is started: a failed try is followed by another
    while retries are left.  The result is the final state and the number
    of tries made. *)
Fixpoint run_tries (callable : nat -> bool) (try_number retries_left : nat)
  : state * nat :=
  if callable try_number then (success, try_number)
  else match retries_left with
       | 0 => (failed, try_number)
       | S retries_left' => run_tries callable (S try_number) retries_left'
       end.

Definition run_task (b : behaviour) (t : task) : state * nat :=
  run_tries (b t) 1 (task_retries t).

(** The states and try counts of the tasks handled so far. *)
Definition dag_run := task -> option (state * nat).

Definition state_of (r : dag_run) (t : task) : option state := fst <$> r t.
Definition tries_of (r : dag_run) (t : task) : nat :=
  from_option snd 0 (r t).

(** One task under the default trigger rule [all_success]: it starts only
    when every upstream task ended in [success]. *)
Definition schedule (b : behaviour) (r : dag_run) (t : task) : dag_run :=
  let st :=
    if forallb (fun u => bool_decide (state_of r u = Some success)) (upstream t)
    then run_task b t
    else (upstream_failed, 0) in
  fun t' => if decide (t' = t) then Some st else r t'.

(** A run of the DAG: the tasks are handled in dependency order. *)
Definition execute (b : behaviour) : dag_run :=
  foldl (schedule b) (fun _ => None) tasks.

(** The run fails when a task without downstream tasks ends in [failed] or
    [upstream_failed]. *)
Definition leaves : list task :=
  filter (fun t => downstream t = []) tasks.

Definition dag_run_state (r : dag_run) : state :=
  if forallb (fun t => bool_decide (state_of r t = Some success)) leaves
  then success else failed.

End Dag.

(** ** Sample data for the worked instances *)

Module Samples.
Import Extract.

Definition payload : dict :=
  {[ "date" := VStr "2025-11-13"; "title" := VStr "Nebula";
     "media_type" := VStr "image" ]}.

Definition api_url : string := "https://api.nasa.gov/planetary/apod".

Definition ok_response : response :=
  mk_response 200 "OK" api_url (inr payload).

Definition unavailable : response :=
  mk_response 503 "Service Unavailable" api_url (inr ∅).

Definition no_route : exn := mk_exn ConnectionError "Network is unreachable".

Definition decode_error : exn :=
  mk_exn JSONDecodeError "Expecting value: line 1 column 1 (char 0)".

Definition plain_decode_error : exn :=
  mk_exn ValueError "Expecting value: line 1 column 1 (char 0)".

Definition html_response : response :=
  mk_response 200 "OK" api_url (inl decode_error).

(** The same body under a client whose [json()] raises a plain
    [ValueError]. *)
Definition html_response_plain : response :=
  mk_response 200 "OK" api_url (inl plain_decode_error).

(** No route, then a 503, then the payload. *)
Definition recovering_world : world := fun n =>
  match n with
  | 0 => GetRaises no_route
  | 1 => GetReturns unavailable
  | _ => GetReturns ok_response
  end.

(** A body that is not JSON, then the payload. *)
Definition html_then_ok_world : world := fun n =>
  match n with
  | 0 => GetReturns html_response
  | _ => GetReturns ok_response
  end.

(** The same, with the failure raised by [requests.get] instead. *)
Definition raise_then_ok_world : world := fun n =>
  match n with
  | 0 => GetRaises decode_error
  | _ => GetReturns ok_response
  end.

(** A record whose title is the empty string. *)
Definition untitled : Transform.transformed_data :=
  Transform.mk_transformed (VStr "2025-11-13") (VStr "") (VStr "N/A")
    (VStr "N/A") (VStr "N/A") (VStr "image") (VStr "Public Domain")
    (VStr "2025-11-13T00:00:05").

(** A payload with neither a title nor a date. *)
Definition only_explanation : dict :=
  {[ "explanation" := VStr "A cloud of gas and dust." ]}.

(** A payload with a date and no title. *)
Definition only_date : dict := {[ "date" := VStr "2025-11-13" ]}.

(** A run in which the extract task succeeds at once and the transform
    task is handed [only_explanation] on every try. *)
Definition undated_run : Dag.behaviour := fun t n =>
  match t with
  | Dag.transform_task =>
      negb (raised (Transform.transform_apod_data (Some only_explanation)
                      "2025-11-13T00:00:05"))
  | _ => true
  end.

(** A run in which only the PostgreSQL load fails, on every try. *)
Definition postgres_down_run : Dag.behaviour := fun t n =>
  match t with
  | Dag.load_postgres_task => false
  | _ => true
  end.

Definition nov11 : Sink.row :=
  Sink.mk_row "2025-11-11" "Comet" "A comet." "https://apod.nasa.gov/c.jpg"
    "https://apod.nasa.gov/c_hd.jpg" "image" "Public Domain"
    "2025-11-11T00:00:04".

Definition nov12 : Sink.row :=
  Sink.mk_row "2025-11-12" "Aurora" "An aurora." "https://apod.nasa.gov/a.jpg"
    "https://apod.nasa.gov/a_hd.jpg" "image" "Public Domain"
    "2025-11-12T00:00:06".

Definition nov13 : Sink.row :=
  Sink.mk_row "2025-11-13" "Nebula" "A nebula." "https://apod.nasa.gov/n.jpg"
    "https://apod.nasa.gov/n_hd.jpg" "image" "Public Domain"
    "2025-11-13T00:00:05".

(** The record of 12 November, extracted again with another title. *)
Definition nov12_again : Sink.row :=
  Sink.mk_row "2025-11-12" "Aurora over Norway" "An aurora."
    "https://apod.nasa.gov/a.jpg" "https://apod.nasa.gov/a_hd.jpg" "image"
    "Public Domain" "2025-11-13T09:30:00".

(** A repository whose tracked files are all committed, with two commits
    so far. *)
Definition clean_repo : Bash.repo :=
  Bash.mk_repo false false
    ["Update APOD data version - 2025-11-12_00-00-09";
     "Update APOD data version - 2025-11-11_00-00-08"].

(** The same repository after the DVC step rewrote the tracked [.dvc]
    file. *)
Definition changed_repo : Bash.repo :=
  Bash.mk_repo true false (Bash.log clean_repo).

(** A machine on which no command fails for a reason of its own. *)
Definition sound_machine : Bash.machine := fun _ => false.

End Samples.

(** ** Task 4: the shell command of [dvc_task] *)

Module Dvc.

(** The commands the script is made of. *)
Inductive command :=
| Cd (dir : string)
| Echo (text : string)
| True_
| DvcStatus
| DvcAdd (path : string)
| Ls (args : list string)
| Cat (path : string).

(** The working directory as far as the script looks at it: the checksum of
    [data/apod_data.csv] when the file is there, and the checksum written
    in [data/apod_data.csv.dvc] when that file is there. *)
Record workspace := mk_workspace {
  csv_md5 : option string;
  dvc_file : option string
}.

(** One command: its exit status and the workspace it leaves.  [dvc add]
    needs the file it is given and records its checksum; [cat] needs the
    file it prints. *)
Definition exec (breaks : bool) (c : command) (w : workspace)
  : nat * workspace :=
  match c with
  | Echo _ | True_ => (0, w)
  | Cd _ | DvcStatus => (if breaks then 1 else 0, w)
  | Ls _ => (if breaks then 2 else 0, w)
  | DvcAdd _ =>
      match csv_md5 w with
      | Some md5 =>
          if breaks then (1, w) else (0, mk_workspace (csv_md5 w) (Some md5))
      | None => (1, w)
      end
  | Cat _ =>
      match dvc_file w with
      | Some _ => (if breaks then 1 else 0, w)
      | None => (1, w)
      end
  end.

(** The rest of a list from position [pos], as in [Bash.and_or]. *)
Fixpoint and_or (m : Bash.machine) (pos : nat)
    (rest : list (Bash.connective * command)) (status : nat) (w : workspace)
  : nat * workspace :=
  match rest with
  | [] => (status, w)
  | (op, c) :: rest' =>
      let runs := match op with
                  | Bash.AndIf => bool_decide (status = 0)
                  | Bash.OrIf => negb (bool_decide (status = 0))
                  end in
      if runs then
        let '(status', w') := exec (m pos) c w in
        and_or m (S pos) rest' status' w'
      else and_or m (S pos) rest' status w
  end.

Definition run (m : Bash.machine)
    (script : command * list (Bash.connective * command)) (w : workspace)
  : nat * workspace :=
  let '(status, w') := exec (m 0) (fst script) w in
  and_or m 1 (snd script) status w'.

(** [bash_command] of [dvc_task]; [pwd] is what [$(pwd)] expands to. *)
Definition dvc_task_bash_command (pwd : string)
  : command * list (Bash.connective * command) :=
  (Cd "/opt/airflow",
   [ (Bash.AndIf, Echo ("Current directory: " ++ pwd));
     (Bash.AndIf, Echo "Checking DVC status before adding...");
     (Bash.AndIf, DvcStatus);
     (Bash.OrIf, True_);
     (Bash.AndIf, Echo "Adding CSV file to DVC...");
     (Bash.AndIf, DvcAdd "data/apod_data.csv");
     (Bash.AndIf, Echo "DVC status after adding:");
     (Bash.AndIf, DvcStatus);
     (Bash.AndIf, Echo "DVC versioning completed for apod_data.csv");
     (Bash.AndIf, Ls ["-lh"; "data/apod_data.csv*"]);
     (Bash.AndIf, Echo "DVC file contents:");
     (Bash.AndIf, Cat "data/apod_data.csv.dvc") ]).

End Dvc.

(** ** The tasks over successive runs *)

Module Runs.

(** The seconds a trace spends in [time.sleep]. *)
Definition slept (t : list Extract.event) : nat :=
  sum_list (omap (fun ev => match ev with
                            | Extract.Sleep secs => Some secs
                            | Extract.Request _ => None
                            end) t).

(** The extract task as the scheduler sees it: try number [n] talks to the
    remote side [ws n] and succeeds when the function returns. *)
Definition extract_callable (ws : nat -> Extract.world) (n : nat) : bool :=
  negb (raised (Extract.run (ws n)).1).

(** The requests sent by the tries 1..[n] of the extract task. *)
Definition requests_of_tries (ws : nat -> Extract.world) (n : nat) : nat :=
  sum_list ((fun i => Extract.sent (Extract.run (ws i)).2) <$> seq 1 n).

(** The keyed store after one fault-free load per record, in order. *)
Definition load_all_to_postgres (records : list Sink.row)
    (apod_data : list Sink.row) : list Sink.row :=
  foldl (fun tbl data => (Sink.load_to_postgres None data tbl).2)
    apod_data records.

(** The record loaded last for the date [d]. *)
Definition last_loaded (d : string) (records : list Sink.row)
  : option Sink.row :=
  last (filter (fun r => Sink.date r = d) records).

(** A machine looked at in its first [n] positions only; the commands of
    a list of [n] commands see no other. *)
Definition first_positions (n : nat) (m : Bash.machine) : Bash.machine :=
  fun pos => nth pos (m <$> seq 0 n) false.

(** Two payloads that agree on the seven keys the transformer reads. *)
Definition same_known_keys (raw_data raw_data' : dict) : Prop :=
  ∀ k, k ∈ ["date"; "title"; "explanation"; "url"; "hdurl"; "media_type";
            "copyright"] ->
       raw_data !! k = raw_data' !! k.

End Runs.

(** ** More sample data *)

Module MoreSamples.
Import Extract.

(** A remote side that is never reachable. *)
Definition dead_world : world := fun _ => GetRaises Samples.no_route.

(** The payload of [Samples.payload] with the keys the API adds. *)
Definition verbose_payload : dict :=
  <["service_version" := VStr "v1"]> Samples.payload.

(** A payload whose title is an explicit [null]. *)
Definition null_title : dict :=
  {[ "date" := VStr "2025-11-13"; "title" := VNone ]}.

(** A workspace whose CSV file changed since it was last added. *)
Definition stale_workspace : Dvc.workspace :=
  Dvc.mk_workspace (Some "9f2c") (Some "41ab").

(** A workspace whose CSV file is as it was last added. *)
Definition tracked_workspace : Dvc.workspace :=
  Dvc.mk_workspace (Some "9f2c") (Some "9f2c").

(** Three days of loads, the second day loaded twice. *)
Definition four_loads : list Sink.row :=
  [Samples.nov11; Samples.nov12; Samples.nov13; Samples.nov12_again].

Definition timed_out : exn := mk_exn Exception "connection timed out".

(** A try in which [conn.commit()] times out before the server has
    committed; the rollback and the closing go through. *)
Definition commit_times_out : Sink.db_fault :=
  Sink.mk_db_fault (Some (Sink.Commit false, timed_out)) None None.

(** A try in which the connection is lost while the statement runs: the
    rollback in the handler raises as well. *)
Definition connection_lost : Sink.db_fault :=
  Sink.mk_db_fault (Some (Sink.Execute, timed_out))
    (Some (mk_exn Exception "connection already closed")) None.

(** The record of 12 November as the transform task returned it: a video,
    for which the API serves no [hdurl]. *)
Definition yesterday : Transform.transformed_data :=
  Transform.mk_transformed (VStr "2025-11-12") (VStr "Aurora")
    (VStr "An aurora.") (VStr "https://apod.nasa.gov/a.mp4") (VStr "N/A")
    (VStr "video") (VStr "Public Domain") (VStr "2025-11-12T00:00:06").

(** The record of 13 November. *)
Definition today : Transform.transformed_data :=
  Transform.mk_transformed (VStr "2025-11-13") (VStr "Nebula")
    (VStr "A nebula.") (VStr "https://apod.nasa.gov/n.jpg")
    (VStr "https://apod.nasa.gov/n_hd.jpg") (VStr "image")
    (VStr "Public Domain") (VStr "2025-11-13T00:00:05").

(** What [pd.read_csv] returns for the file the load of [yesterday] wrote:
    the field N/A is one of its markers for a missing value. *)
Definition yesterday_as_read : Csv.frame :=
  Csv.mk_frame Csv.record_columns
    [ <["hdurl" := VNaN]> (Csv.record_dict yesterday) ].

(** A file whose dates [pd.read_csv] reads as numbers. *)
Definition numbered_file : Csv.frame :=
  Csv.mk_frame Csv.record_columns
    [ <["date" := VInt 20251112]> (Csv.record_dict yesterday) ].

Definition type_error_text : string :=
  "'<' not supported between instances of 'str' and 'int'".

(** A run in which the CSV load is handed [today], finds [numbered_file]
    on every try, and every other task succeeds at once. *)
Definition unsortable_file_run : Dag.behaviour := fun t n =>
  match t with
  | Dag.load_csv_task =>
      negb (raised (Csv.load_to_csv today (Csv.ReadReturns numbered_file)
                      type_error_text None).1)
  | _ => true
  end.

(** A run in which every task succeeds on its first try. *)
Definition healthy_run : Dag.behaviour := fun _ _ => true.

(** A run whose extract task finds the remote side unreachable on every
    try, every other task being ready to succeed. *)
Definition outage_run : Dag.behaviour := fun t n =>
  match t with
  | Dag.extract_task => Runs.extract_callable (fun _ => dead_world) n
  | _ => true
  end.

(** A machine on which only the first [dvc status] (position 3) fails. *)
Definition first_status_fails : Bash.machine := fun pos =>
  bool_decide (pos = 3).

(** A machine on which only [git add] (position 12) fails. *)
Definition missing_pathspec : Bash.machine := fun pos =>
  bool_decide (pos = 12).

End MoreSamples.

(** * Properties *)

(** ** The extractor *)

Section ExtractProperties.
Import Extract.

Lemma attempt_body_raises w attempt s e :
  try_raises (w (sent s)) e ->
  attempt_body w attempt s =
    if is_RequestException e then
      if bool_decide (attempt = max_retries - 1)
      then (Raise (exhausted e), after_request s)
      else (Return None, after_sleep (2 ^ attempt) (after_request s))
    else (Raise e, after_request s).
Proof.
  intros H. unfold attempt_body, try_except, requests_get, mbind, io_bind.
  destruct H as [e | r Hr | r e Hr Hj]; simpl.
  - destruct (is_RequestException e); [case_bool_decide|]; reflexivity.
  - unfold raise_for_status. rewrite bool_decide_eq_true_2 by done. simpl.
    case_bool_decide; reflexivity.
  - unfold raise_for_status. rewrite bool_decide_eq_false_2 by done. simpl.
    unfold json. rewrite Hj. simpl.
    destruct (is_RequestException e); [case_bool_decide|]; reflexivity.
Qed.

Lemma attempt_body_succeeds w attempt s data :
  succeeds (w (sent s)) data ->
  attempt_body w attempt s = (Return (Some data), after_request s).
Proof.
  intros (r & Hw & Hr & Hj).
  unfold attempt_body, try_except, requests_get, mbind, io_bind.
  rewrite Hw. simpl. unfold raise_for_status.
  rewrite bool_decide_eq_false_2 by done. simpl.
  unfold json. rewrite Hj. reflexivity.
Qed.

Lemma fails_try_raises rp e :
  fails rp e -> try_raises rp e ∧ is_RequestException e = true.
Proof.
  intros [[-> He] | (r & -> & Hr & ->)]; split; auto using try_raises.
Qed.

Lemma malformed_try_raises rp e : malformed rp e -> try_raises rp e.
Proof. intros (r & -> & Hr & Hj). by constructor. Qed.

Lemma reply_cases rp :
  (∃ e, try_raises rp e) ∨ (∃ data, succeeds rp data).
Proof.
  destruct rp as [e | r]; [left; eauto using try_raises|].
  destruct (decide (400 <= status_code r < 600)) as [Hr | Hr];
    [left; eauto using try_raises|].
  destruct (json_result r) as [e | data] eqn:Hj;
    [left; eauto using try_raises|].
  right. exists data, r. done.
Qed.

(** Each iteration of the loop sends exactly one request. *)
Lemma attempt_body_one_request w attempt s :
  requests_issued (trace (attempt_body w attempt s).2)
  = S (requests_issued (trace s)).
Proof.
  assert (Hreq : ∀ s0, requests_issued (trace (after_request s0))
                       = S (requests_issued (trace s0))).
  { intros s0. unfold requests_issued, after_request. simpl.
    rewrite filter_app, length_app. simpl. lia. }
  assert (Hsl : ∀ n s0, requests_issued (trace (after_sleep n s0))
                        = requests_issued (trace s0)).
  { intros n s0. unfold requests_issued, after_sleep. simpl.
    rewrite filter_app, length_app. simpl. lia. }
  destruct (reply_cases (w (sent s))) as [[e He] | [data Hd]].
  - rewrite (attempt_body_raises _ _ _ _ He).
    destruct (is_RequestException e); [case_bool_decide|]; cbn [snd];
      rewrite ?Hsl, ?Hreq; reflexivity.
  - rewrite (attempt_body_succeeds _ _ _ _ Hd). cbn [snd]. apply Hreq.
Qed.

Lemma for_attempt_requests w attempts s :
  requests_issued (trace (for_attempt w attempts s).2)
  <= requests_issued (trace s) + length attempts.
Proof.
  revert s. induction attempts as [| attempt rest IH]; intros s; simpl.
  - lia.
  - unfold mbind, io_bind.
    pose proof (attempt_body_one_request w attempt s) as H1.
    destruct (attempt_body w attempt s) as [[[data|]|e] s']; simpl in *.
    + lia.
    + specialize (IH s'). lia.
    + lia.
Qed.

(** The loop, one iteration unrolled. *)
Lemma for_attempt_cons w attempt rest s :
  for_attempt w (attempt :: rest) s =
    match attempt_body w attempt s with
    | (Return (Some data), s') => (Return (Some data), s')
    | (Return None, s') => for_attempt w rest s'
    | (Raise e, s') => (Raise e, s')
    end.
Proof.
  simpl. unfold mbind, io_bind.
  destruct (attempt_body w attempt s) as [[[data|]|e] s']; reflexivity.
Qed.

Ltac failed_attempt H :=
  let Hr := fresh in let Hc := fresh in
  destruct (fails_try_raises _ _ H) as [Hr Hc];
  rewrite for_attempt_cons;
  match goal with
  | |- context [attempt_body ?w ?a ?s] =>
      rewrite (attempt_body_raises w a s _ Hr), Hc
  end;
  clear Hr Hc; simpl bool_decide; cbv iota.

Ltac good_attempt H :=
  rewrite for_attempt_cons;
  match goal with
  | |- context [attempt_body ?w ?a ?s] =>
      rewrite (attempt_body_succeeds w a s _ H)
  end.

(** C3.  Whatever the remote side does, a run sends at most
    [max_retries] = 3 requests.  When the first [k] requests meet a
    transport or HTTP failure and request [k] (with [k < 3]) succeeds, the
    run returns the decoded payload after exactly the requests 0..k, with
    a sleep of [2 ^ i] seconds after each failed request [i].  When all
    three requests fail, the run raises a plain [Exception] whose text is
    "Failed to fetch APOD data after 3 attempts: " followed by the text of
    the third failure, after the sleeps of 1 and 2 seconds and no sleep
    after the third request. *)
Theorem extract_retries_with_backoff (w : world) :
  requests_issued (trace (run w).2) <= max_retries
  ∧ (∀ k data, k < max_retries ->
       (∀ j, j < k -> ∃ e, fails (w j) e) ->
       succeeds (w k) data ->
       run w = (Return (Some data), mk_net (S k) (trace_upto k)))
  ∧ (∀ e, (∀ j, j < max_retries - 1 -> ∃ e', fails (w j) e') ->
       fails (w (max_retries - 1)) e ->
       run w
       = (Raise (mk_exn Exception
                   ("Failed to fetch APOD data after 3 attempts: " ++ str e)),
          mk_net 3 [Request 0; Sleep 1; Request 1; Sleep 2; Request 2])).
Proof.
  split; [|split].
  - apply (for_attempt_requests w (seq 0 max_retries) (mk_net 0 [])).
  - intros k data Hk Hfail Hok. unfold max_retries in Hk.
    unfold run, extract_apod_data, max_retries. cbn [seq].
    destruct k as [|[|[|k]]]; [| | |lia].
    + good_attempt Hok. reflexivity.
    + destruct (Hfail 0) as [e0 H0]; [lia|].
      failed_attempt H0.
      good_attempt Hok. reflexivity.
    + destruct (Hfail 0) as [e0 H0]; [lia|].
      destruct (Hfail 1) as [e1 H1]; [lia|].
      failed_attempt H0.
      failed_attempt H1.
      good_attempt Hok. reflexivity.
  - intros e Hfail Hlast. unfold max_retries in *. simpl in Hlast.
    unfold run, extract_apod_data, max_retries. cbn [seq].
    destruct (Hfail 0) as [e0 H0]; [lia|].
    destruct (Hfail 1) as [e1 H1]; [lia|].
    failed_attempt H0.
    failed_attempt H1.
    failed_attempt Hlast. reflexivity.
Qed.

Lemma extract_retries_with_backoff_witness :
  run Samples.recovering_world
  = (Return (Some Samples.payload),
     mk_net 3 [Request 0; Sleep 1; Request 1; Sleep 2; Request 2])
  ∧ run MoreSamples.dead_world
    = (Raise (mk_exn Exception
                "Failed to fetch APOD data after 3 attempts: Network is unreachable"),
       mk_net 3 [Request 0; Sleep 1; Request 1; Sleep 2; Request 2]).
Proof.
  split.
  - apply (proj1 (proj2 (extract_retries_with_backoff Samples.recovering_world))
             2 Samples.payload).
    + unfold max_retries. lia.
    + intros j Hj. destruct j as [|[|j]]; [| |lia].
      * exists Samples.no_route. left. split; reflexivity.
      * exists (http_error Samples.unavailable). right.
        exists Samples.unavailable. simpl. repeat split; lia.
    + exists Samples.ok_response. simpl. repeat split. lia.
  - apply (proj2 (proj2 (extract_retries_with_backoff MoreSamples.dead_world))
             Samples.no_route).
    + intros j Hj. exists Samples.no_route. left. split; reflexivity.
    + left. split; reflexivity.
Defined.

Lemma attempt_body_same w w' attempt s :
  same_but_malformed w w' ->
  attempt_body w attempt s = attempt_body w' attempt s.
Proof.
  intros H. destruct (H (sent s)) as [Heq | (e & Hm & Hc & Hw')].
  - unfold attempt_body, try_except, mbind, io_bind, requests_get.
    rewrite Heq. reflexivity.
  - rewrite (attempt_body_raises w attempt s e (malformed_try_raises _ _ Hm)).
    rewrite (attempt_body_raises w' attempt s e); [reflexivity|].
    rewrite Hw'. constructor.
Qed.

Lemma for_attempt_same w w' attempts s :
  same_but_malformed w w' ->
  for_attempt w attempts s = for_attempt w' attempts s.
Proof.
  intros H. revert s. induction attempts as [| attempt rest IH]; intros s.
  - reflexivity.
  - rewrite !for_attempt_cons, (attempt_body_same w w' attempt s H).
    destruct (attempt_body w' attempt s) as [[[data|]|e] s']; auto.
Qed.

(** Every iteration only appends to the trace. *)
Lemma attempt_body_extends w attempt s :
  ∃ t, trace (attempt_body w attempt s).2
       = (trace s ++ Request (sent s) :: t)%list.
Proof.
  destruct (reply_cases (w (sent s))) as [[e He] | [data Hd]].
  - rewrite (attempt_body_raises _ _ _ _ He).
    destruct (is_RequestException e); [case_bool_decide|]; simpl;
      rewrite <- ?(assoc_L (++)); eauto.
  - rewrite (attempt_body_succeeds _ _ _ _ Hd). simpl. eauto.
Qed.

Lemma for_attempt_extends w attempts s :
  ∃ t, trace (for_attempt w attempts s).2 = (trace s ++ t)%list.
Proof.
  revert s. induction attempts as [| attempt rest IH]; intros s.
  - exists []. simpl. by rewrite app_nil_r.
  - rewrite for_attempt_cons.
    destruct (attempt_body_extends w attempt s) as [t Ht].
    destruct (attempt_body w attempt s) as [[[data|]|e] s']; simpl in *;
      [eauto | | eauto].
    destruct (IH s') as [t' Ht']. rewrite Ht', Ht, <- (assoc_L (++)). eauto.
Qed.

(** C4, as the code behaves.  A body that does not decode reaches the
    handler as whatever [response.json()] raises, and the handler looks at
    its class only.  (1) When it is a [RequestException], as the
    [JSONDecodeError] of [requests] is, the run is the very run in which
    [requests.get] raised that exception: it backs off and retries, and
    after the third failure raises the exhausted error.  (2) In particular
    such a failure of the first request is followed by a sleep of one
    second and a second request.  (3) Only an exception outside
    [RequestException] leaves the function at once, unwrapped and without
    a sleep. *)
Theorem malformed_body_handled_by_class :
  (∀ w w', same_but_malformed w w' -> run w = run w')
  ∧ (∀ w e, malformed (w 0) e -> is_RequestException e = true ->
       take 3 (trace (run w).2) = [Request 0; Sleep 1; Request 1])
  ∧ (∀ w k e, k < max_retries ->
       (∀ j, j < k -> ∃ e', fails (w j) e') ->
       malformed (w k) e -> is_RequestException e = false ->
       run w = (Raise e, mk_net (S k) (trace_upto k))).
Proof.
  split; [|split].
  - intros w w' H. apply (for_attempt_same w w' _ _ H).
  - intros w e Hm Hc. apply malformed_try_raises in Hm.
    unfold run, extract_apod_data, max_retries. cbn [seq].
    rewrite for_attempt_cons.
    rewrite (attempt_body_raises w 0 (mk_net 0 []) e Hm), Hc.
    simpl bool_decide. cbv iota. rewrite for_attempt_cons.
    set (s1 := after_sleep (2 ^ 0) (after_request (mk_net 0 []))).
    destruct (attempt_body_extends w 1 s1) as [t Ht].
    destruct (attempt_body w 1 s1) as [[[data|]|e1] s2];
      cbn [snd] in Ht |- *; try (rewrite Ht; reflexivity).
    destruct (for_attempt_extends w [2] s2) as [t' Ht'].
    rewrite Ht', Ht. reflexivity.
  - intros w k e Hk Hfail Hm Hc. apply malformed_try_raises in Hm.
    unfold max_retries in Hk.
    unfold run, extract_apod_data, max_retries. cbn [seq].
    destruct k as [|[|[|k]]]; [| | |lia].
    + rewrite for_attempt_cons.
      rewrite (attempt_body_raises w 0 (mk_net 0 []) e Hm), Hc. reflexivity.
    + destruct (Hfail 0) as [e0 H0]; [lia|].
      failed_attempt H0. rewrite for_attempt_cons.
      match goal with
      | |- context [attempt_body ?w ?a ?s] =>
          rewrite (attempt_body_raises w a s e Hm), Hc
      end. reflexivity.
    + destruct (Hfail 0) as [e0 H0]; [lia|].
      destruct (Hfail 1) as [e1 H1]; [lia|].
      failed_attempt H0. failed_attempt H1. rewrite for_attempt_cons.
      match goal with
      | |- context [attempt_body ?w ?a ?s] =>
          rewrite (attempt_body_raises w a s e Hm), Hc
      end. reflexivity.
Qed.

Lemma html_world_same :
  same_but_malformed Samples.html_then_ok_world Samples.raise_then_ok_world.
Proof.
  intros [|n]; [right | left; reflexivity].
  exists Samples.decode_error. split; [|split; reflexivity].
  exists Samples.html_response. simpl. repeat split. lia.
Defined.

Lemma malformed_body_handled_by_class_witness :
  run Samples.html_then_ok_world = run Samples.raise_then_ok_world.
Proof.
  apply (proj1 malformed_body_handled_by_class). apply html_world_same.
Defined.

(** For comparison: a decode error that is no [RequestException] leaves the
    function after the first request. *)
Lemma plain_decode_error_propagates :
  run (fun _ => GetReturns Samples.html_response_plain)
  = (Raise Samples.plain_decode_error, mk_net 1 [Request 0]).
Proof. reflexivity. Qed.

(** C4, as stated, fails: the first response is a 200 whose body
    does not decode, and the run sleeps one second, asks again and returns
    the payload of the second response. *)
Lemma parse_failure_is_retried :
  malformed (Samples.html_then_ok_world 0) Samples.decode_error
  ∧ run Samples.html_then_ok_world
    = (Return (Some Samples.payload),
       mk_net 2 [Request 0; Sleep 1; Request 1]).
Proof.
  split; [|reflexivity].
  exists Samples.html_response. simpl. repeat split. lia.
Qed.

End ExtractProperties.

(** ** The transformer and its quality checks *)

Section TransformProperties.
Import Transform.

Lemma isin_image_video v :
  isin v [VStr "image"; VStr "video"] = true
  ↔ v = VStr "image" ∨ v = VStr "video".
Proof.
  unfold isin. rewrite bool_decide_eq_true, !elem_of_cons, elem_of_nil.
  tauto.
Qed.

(** C6, as the code behaves.  The checks pass exactly when the date is not
    missing, the title is not missing and the media type is the string
    image or the string video, where missing means [None] or [NaN]: a
    title that is the empty string is not missing. *)
Theorem quality_checks_pass_iff (df : transformed_data) :
  quality_checks df = Return tt
  ↔ isna (date df) = false ∧ isna (title df) = false
    ∧ (media_type df = VStr "image" ∨ media_type df = VStr "video").
Proof.
  rewrite <- isin_image_video. unfold quality_checks, assert_.
  destruct (isna (date df)), (isna (title df)),
    (isin (media_type df) [VStr "image"; VStr "video"]); simpl;
    intuition congruence.
Qed.

Lemma quality_checks_pass_iff_witness :
  quality_checks Samples.untitled = Return tt.
Proof.
  apply (proj2 (quality_checks_pass_iff Samples.untitled)).
  simpl. auto.
Defined.

(** C6, as stated, fails: a record whose title is the empty
    string passes the checks. *)
Lemma empty_title_passes :
  title Samples.untitled = VStr ""
  ∧ quality_checks Samples.untitled = Return tt.
Proof. split; reflexivity. Qed.

Lemma get_is_Some (raw_data : dict) k :
  isna (get raw_data k) = false -> raw_data ≠ ∅.
Proof.
  intros H ->. unfold get in H. rewrite lookup_empty in H. discriminate.
Qed.

Lemma transform_nonempty (raw_data : dict) now :
  raw_data ≠ ∅ ->
  transform_apod_data (Some raw_data) now =
    (_ ← quality_checks (select_fields raw_data now);
     mret (select_fields raw_data now)).
Proof.
  intros H. unfold transform_apod_data.
  by rewrite bool_decide_eq_false_2.
Qed.

End TransformProperties.

(** ** The DAG *)

Section DagProperties.
Import Dag.

Lemma run_tries_state callable n left :
  (run_tries callable n left).1 = success
  ∨ (run_tries callable n left).1 = failed.
Proof.
  revert n. induction left as [| left IH]; intros n; simpl;
    destruct (callable n); simpl; auto.
Qed.

Lemma run_tries_count callable n left :
  n <= (run_tries callable n left).2 <= n + left.
Proof.
  revert n. induction left as [| left IH]; intros n; simpl;
    destruct (callable n); simpl; try lia.
  specialize (IH (S n)). lia.
Qed.

(** A callable that fails on every try is tried once and then once more
    for each retry. *)
Lemma run_tries_always_failing callable n left :
  (∀ k, callable k = false) ->
  run_tries callable n left = (failed, n + left).
Proof.
  intros H. revert n. induction left as [| left IH]; intros n; simpl;
    rewrite H; [f_equal; lia|].
  rewrite IH. f_equal. lia.
Qed.

Lemma run_task_cases b t :
  ∃ st n, run_task b t = (st, n) ∧ (st = success ∨ st = failed) ∧ 1 <= n.
Proof.
  unfold run_task.
  pose proof (run_tries_state (b t) 1 (task_retries t)) as Hs.
  pose proof (run_tries_count (b t) 1 (task_retries t)) as Hc.
  destruct (run_tries (b t) 1 (task_retries t)) as [st n]; simpl in *.
  exists st, n. split; [done|]. split; [done|lia].
Qed.

(** The entry of every task in closed form: a task is started exactly
    when every task before it on the chain succeeded. *)
Lemma execute_closed_form b t :
  let ok u := bool_decide ((run_task b u).1 = success) in
  execute b t = Some
    match t with
    | extract_task => run_task b extract_task
    | transform_task =>
        if ok extract_task then run_task b transform_task
        else (upstream_failed, 0)
    | load_postgres_task =>
        if ok extract_task && ok transform_task
        then run_task b load_postgres_task else (upstream_failed, 0)
    | load_csv_task =>
        if ok extract_task && ok transform_task
        then run_task b load_csv_task else (upstream_failed, 0)
    | dvc_task =>
        if ok extract_task && ok transform_task
           && ok load_postgres_task && ok load_csv_task
        then run_task b dvc_task else (upstream_failed, 0)
    | git_task =>
        if ok extract_task && ok transform_task
           && ok load_postgres_task && ok load_csv_task && ok dvc_task
        then run_task b git_task else (upstream_failed, 0)
    end.
Proof.
  destruct t; cbv -[run_task];
    destruct (run_task b extract_task) as [[] ?]; try reflexivity;
    destruct (run_task b transform_task) as [[] ?]; try reflexivity;
    destruct (run_task b load_postgres_task) as [[] ?]; try reflexivity;
    destruct (run_task b load_csv_task) as [[] ?]; try reflexivity;
    destruct (run_task b dvc_task) as [[] ?]; reflexivity.
Qed.

Lemma dag_run_state_git r :
  dag_run_state r =
    if decide (state_of r git_task = Some success) then success else failed.
Proof.
  unfold dag_run_state. replace leaves with [git_task] by reflexivity.
  simpl. rewrite andb_true_r.
  destruct (decide (state_of r git_task = Some success)) as [H | H].
  - by rewrite bool_decide_eq_true_2.
  - by rewrite bool_decide_eq_false_2.
Qed.

Ltac split_task b t :=
  let st := fresh "st" in let n := fresh "n" in
  let E := fresh "E" in let Hn := fresh "Hn" in
  destruct (run_task_cases b t) as (st & n & E & [-> | ->] & Hn);
  rewrite ?E in *.

Ltac split_tasks b :=
  split_task b extract_task; split_task b transform_task;
  split_task b load_postgres_task; split_task b load_csv_task;
  split_task b dvc_task; split_task b git_task.

(** C7.  In every run: a versioning task is tried only when both sink
    tasks ended in [success] (and the commit only after the DVC task did);
    when a sink task ends in [failed], that is after its last retry, both
    versioning tasks end in [upstream_failed], the state of a task that is
    never started, without a single try, and the run is [failed]; and the
    other sink task was started all the same and ran to its own result. *)
Theorem versioning_waits_for_both_sinks (b : behaviour) :
  let r := execute b in
  (0 < tries_of r dvc_task ->
     state_of r load_postgres_task = Some success
     ∧ state_of r load_csv_task = Some success)
  ∧ (0 < tries_of r git_task ->
     state_of r load_postgres_task = Some success
     ∧ state_of r load_csv_task = Some success
     ∧ state_of r dvc_task = Some success)
  ∧ (state_of r load_postgres_task = Some failed
     ∨ state_of r load_csv_task = Some failed ->
     state_of r dvc_task = Some upstream_failed
     ∧ tries_of r dvc_task = 0
     ∧ state_of r git_task = Some upstream_failed
     ∧ tries_of r git_task = 0
     ∧ dag_run_state r = failed
     ∧ r load_postgres_task = Some (run_task b load_postgres_task)
     ∧ r load_csv_task = Some (run_task b load_csv_task)
     ∧ 1 <= tries_of r load_postgres_task
     ∧ 1 <= tries_of r load_csv_task).
Proof.
  cbv zeta. rewrite dag_run_state_git. unfold state_of, tries_of.
  rewrite !execute_closed_form. cbv zeta.
  split_tasks b; simpl; repeat split; intros; simpl in *;
    try done; try lia; try (destruct_or?; done).
Qed.

Lemma versioning_waits_for_both_sinks_witness :
  let r := execute Samples.postgres_down_run in
  state_of r load_postgres_task = Some failed
  ∧ tries_of r load_postgres_task = 3
  ∧ state_of r load_csv_task = Some success
  ∧ state_of r dvc_task = Some upstream_failed
  ∧ state_of r git_task = Some upstream_failed
  ∧ dag_run_state r = failed.
Proof.
  pose proof (proj2 (proj2
    (versioning_waits_for_both_sinks Samples.postgres_down_run))) as H.
  cbv zeta in H |- *.
  destruct H as (Hd & _ & Hg & _ & Hr & _); [left; reflexivity|].
  repeat split; first [assumption | reflexivity].
Defined.

(** Whether the transformer raises does not depend on the clock: the
    extraction time is stamped on the record and never checked. *)
Lemma transform_raised_any_time xcom now now' :
  raised (Transform.transform_apod_data xcom now)
  = raised (Transform.transform_apod_data xcom now').
Proof.
  destruct xcom as [raw_data|]; [|reflexivity].
  unfold Transform.transform_apod_data. case_bool_decide; [reflexivity|].
  unfold Transform.quality_checks. simpl.
  destruct (Transform.isna (get raw_data "date")); [reflexivity|].
  destruct (Transform.isna (get_default raw_data "title" _)); [reflexivity|].
  destruct (Transform.isin _ _); reflexivity.
Qed.

(** C5, as the code behaves.  The transform task takes its retries from
    [default_args] like every other task.  In a run whose extract task
    succeeded and whose transform task raises on its first try, a failed
    quality check included, the scheduler tries the task again for each of
    the 2 retries; every try is handed the same payload and raises again,
    and only after the third try does the task end in [failed]. *)
Theorem validation_failure_is_retried
    (b : behaviour) (xcom : option dict) (now : nat -> string) :
  (∀ n, b transform_task n
        = negb (raised (Transform.transform_apod_data xcom (now n)))) ->
  state_of (execute b) extract_task = Some success ->
  raised (Transform.transform_apod_data xcom (now 1)) = true ->
  task_retries transform_task = 2
  ∧ execute b transform_task = Some (failed, 1 + retries default_args)
  ∧ dag_run_state (execute b) = failed.
Proof.
  intros Hb Hex Hraise.
  assert (Hrun : run_task b transform_task = (failed, 3)).
  { unfold run_task. apply (run_tries_always_failing _ 1 2).
    intros k. rewrite Hb, (transform_raised_any_time _ _ (now 1)), Hraise.
    reflexivity. }
  split; [reflexivity|].
  revert Hex. rewrite dag_run_state_git. unfold state_of.
  rewrite !execute_closed_form. cbv zeta. rewrite Hrun. simpl.
  intros [= ->]. simpl. done.
Qed.

Lemma validation_failure_is_retried_witness :
  execute Samples.undated_run transform_task = Some (failed, 3).
Proof.
  refine (proj1 (proj2 (validation_failure_is_retried Samples.undated_run
    (Some Samples.only_explanation) (fun _ => "2025-11-13T00:00:05") _ _ _))).
  - intros n. reflexivity.
  - reflexivity.
  - reflexivity.
Defined.

(** C5, as stated, fails: the transform task is handed a payload
    without a date, its quality check fails, and the task is tried three
    times before the run fails. *)
Lemma validation_failure_tried_three_times :
  Transform.transform_apod_data (Some Samples.only_explanation)
    "2025-11-13T00:00:05"
  = Raise (mk_exn AssertionError "Date field cannot be null")
  ∧ state_of (execute Samples.undated_run) extract_task = Some success
  ∧ tries_of (execute Samples.undated_run) transform_task = 3
  ∧ tries_of (execute Samples.undated_run) transform_task ≠ 1.
Proof. repeat split; [reflexivity..|discriminate]. Qed.

(** A transform task that fails on every try keeps both sink tasks from
    starting. *)
Lemma failed_transform_blocks_sinks b :
  (∀ n, b transform_task n = false) ->
  execute b load_postgres_task = Some (upstream_failed, 0)
  ∧ execute b load_csv_task = Some (upstream_failed, 0).
Proof.
  intros Hb.
  assert (Hrun : run_task b transform_task = (failed, 3)).
  { unfold run_task. by apply (run_tries_always_failing _ 1 2). }
  rewrite !execute_closed_form. cbv zeta. rewrite Hrun. simpl.
  rewrite andb_false_r. done.
Qed.

End DagProperties.

(** ** The keyed store *)

Section PostgresProperties.
Import Sink.

Lemma do_update_same_key existing excluded :
  date existing = date excluded -> do_update existing excluded = excluded.
Proof. destruct excluded. unfold do_update. simpl. by intros ->. Qed.

Lemma filter_date_absent d (tbl : list row) :
  d ∉ date <$> tbl -> filter (fun r => date r = d) tbl = [].
Proof.
  induction tbl as [| x tbl IH]; [done|]. rewrite fmap_cons, not_elem_of_cons.
  intros [Hx Htbl]. rewrite filter_cons_False by done. auto.
Qed.

Lemma filter_other_dates_absent d (tbl : list row) :
  d ∉ date <$> tbl -> filter (fun r => date r ≠ d) tbl = tbl.
Proof.
  induction tbl as [| x tbl IH]; [done|]. rewrite fmap_cons, not_elem_of_cons.
  intros [Hx Htbl]. rewrite filter_cons_True by done. f_equal. auto.
Qed.

Lemma insert_absent data tbl :
  date data ∉ date <$> tbl ->
  insert_on_conflict_date data tbl = (tbl ++ [data])%list.
Proof.
  induction tbl as [| x tbl IH]; [done|]. rewrite fmap_cons, not_elem_of_cons.
  intros [Hx Htbl]. simpl. rewrite decide_False by done. f_equal. auto.
Qed.

Lemma update_present data tbl :
  NoDup (date <$> tbl) -> date data ∈ date <$> tbl ->
  date <$> insert_on_conflict_date data tbl = date <$> tbl
  ∧ filter (fun r => date r = date data) (insert_on_conflict_date data tbl)
    = [data]
  ∧ filter (fun r => date r ≠ date data) (insert_on_conflict_date data tbl)
    = filter (fun r => date r ≠ date data) tbl.
Proof.
  induction tbl as [| x tbl IH]; [by rewrite elem_of_nil|].
  rewrite fmap_cons, NoDup_cons, elem_of_cons. intros [Hx Hnd] Hin. simpl.
  destruct (decide (date x = date data)) as [Heq | Hne].
  - rewrite do_update_same_key by done. rewrite Heq in Hx.
    rewrite fmap_cons, Heq.
    rewrite (filter_cons_True (fun r => date r = date data)) by done.
    rewrite (filter_cons_False (fun r => date r ≠ date data)) by auto.
    rewrite (filter_cons_False (fun r => date r ≠ date data) x) by auto.
    by rewrite filter_date_absent.
  - destruct Hin as [Hin | Hin]; [done|].
    destruct (IH Hnd Hin) as (Hd & He & Ho).
    rewrite fmap_cons, Hd.
    rewrite (filter_cons_False (fun r => date r = date data)) by done.
    rewrite !(filter_cons_True (fun r => date r ≠ date data)) by done.
    by rewrite He, Ho.
Qed.

Lemma insert_dates data tbl :
  date data ∈ date <$> insert_on_conflict_date data tbl.
Proof.
  induction tbl as [| x tbl IH]; simpl; [apply list_elem_of_here|].
  destruct (decide (date x = date data)) as [Heq | Hne]; rewrite fmap_cons.
  - simpl. rewrite Heq. apply list_elem_of_here.
  - by apply list_elem_of_further.
Qed.

(** The unique index on [date] is kept. *)
Lemma insert_keeps_unique data tbl :
  NoDup (date <$> tbl) -> NoDup (date <$> insert_on_conflict_date data tbl).
Proof.
  intros Hnd. destruct (decide (date data ∈ date <$> tbl)) as [Hin | Hout].
  - by rewrite (proj1 (update_present data tbl Hnd Hin)).
  - rewrite insert_absent, fmap_app by done. apply NoDup_app.
    split; [done|]. split; [|apply NoDup_singleton].
    intros d Hd. simpl. rewrite list_elem_of_singleton. by intros ->.
Qed.

(** C2.  A load that meets no database fault leaves the table the
    statement produces.  The statement appends the record when no row has
    its date.  On a table with unique dates that has a row of that date,
    it keeps the dates and all other rows and leaves the record as the one
    row of its date.  So two loads for one date leave exactly one row of
    that date, holding the second record, and loads for two dates that the
    table did not hold add two rows. *)
Theorem upsert_last_write_wins :
  (∀ data tbl,
     load_to_postgres None data tbl
     = (Return tt, insert_on_conflict_date data tbl))
  ∧ (∀ data tbl, date data ∉ date <$> tbl ->
       insert_on_conflict_date data tbl = (tbl ++ [data])%list)
  ∧ (∀ data tbl, NoDup (date <$> tbl) -> date data ∈ date <$> tbl ->
       date <$> insert_on_conflict_date data tbl = date <$> tbl
       ∧ filter (fun r => date r = date data)
           (insert_on_conflict_date data tbl) = [data]
       ∧ filter (fun r => date r ≠ date data)
           (insert_on_conflict_date data tbl)
         = filter (fun r => date r ≠ date data) tbl)
  ∧ (∀ first second tbl, NoDup (date <$> tbl) ->
       date first = date second ->
       let tbl' := insert_on_conflict_date second
                     (insert_on_conflict_date first tbl) in
       select_count (date second) tbl' = 1
       ∧ filter (fun r => date r = date second) tbl' = [second]
       ∧ filter (fun r => date r ≠ date second) tbl'
         = filter (fun r => date r ≠ date second) tbl)
  ∧ (∀ one other tbl, date one ≠ date other ->
       date one ∉ date <$> tbl -> date other ∉ date <$> tbl ->
       let tbl' := insert_on_conflict_date other
                     (insert_on_conflict_date one tbl) in
       tbl' = (tbl ++ [one; other])%list
       ∧ length tbl' = length tbl + 2
       ∧ select_count (date one) tbl' = 1
       ∧ select_count (date other) tbl' = 1).
Proof.
  split; [done|]. split; [apply insert_absent|].
  split; [apply update_present|]. split.
  - intros first second tbl Hnd Heq tbl'.
    destruct (update_present second (insert_on_conflict_date first tbl))
      as (_ & He & Ho).
    { by apply insert_keeps_unique. }
    { rewrite <- Heq. apply insert_dates. }
    unfold select_count. fold tbl' in He, Ho. rewrite He, Ho.
    split; [done|]. split; [done|]. rewrite <- Heq.
    destruct (decide (date first ∈ date <$> tbl)) as [Hin | Hout].
    + apply (update_present first tbl Hnd Hin).
    + rewrite insert_absent, filter_app by done. simpl.
      rewrite filter_cons_False by auto. by rewrite filter_nil, app_nil_r.
  - intros one other tbl Hne Hone Hother tbl'.
    assert (Htbl' : tbl' = (tbl ++ [one; other])%list).
    { unfold tbl'. rewrite (insert_absent one) by done.
      rewrite insert_absent, <- (assoc_L (++)); [done|].
      rewrite fmap_app, elem_of_app. intros [H | H]; [done|].
      simpl in H. apply list_elem_of_singleton in H. done. }
    rewrite Htbl'. split; [done|]. rewrite length_app. split; [done|].
    unfold select_count. rewrite !filter_app, !length_app.
    rewrite (filter_date_absent (date one) tbl Hone).
    rewrite (filter_date_absent (date other) tbl Hother).
    rewrite (filter_cons_True (fun r => date r = date one) one) by done.
    rewrite (filter_cons_False (fun r => date r = date one) other) by auto.
    rewrite (filter_cons_False (fun r => date r = date other) one) by auto.
    rewrite (filter_cons_True (fun r => date r = date other) other) by done.
    done.
Qed.

Lemma upsert_last_write_wins_witness :
  filter (fun r => date r = "2025-11-12")
    (insert_on_conflict_date Samples.nov12_again
       (insert_on_conflict_date Samples.nov12 [Samples.nov11]))
  = [Samples.nov12_again]
  ∧ insert_on_conflict_date Samples.nov13
      (insert_on_conflict_date Samples.nov12 [])
    = [Samples.nov12; Samples.nov13].
Proof.
  destruct upsert_last_write_wins as (_ & _ & _ & Htwice & Htwo). split.
  - apply (Htwice Samples.nov12 Samples.nov12_again [Samples.nov11]).
    + apply NoDup_singleton.
    + reflexivity.
  - apply (Htwo Samples.nov12 Samples.nov13 []).
    + discriminate.
    + apply not_elem_of_nil.
    + apply not_elem_of_nil.
Defined.

End PostgresProperties.

(** ** The commit step *)

Section GitTaskProperties.
Import Bash.

Lemma and_or_app m pos l1 l2 status r :
  and_or m pos (l1 ++ l2) status r =
    and_or m (pos + length l1) l2
      (and_or m pos l1 status r).1 (and_or m pos l1 status r).2.
Proof.
  revert pos status r. induction l1 as [| [op c] l1 IH]; intros pos status r.
  - simpl. by rewrite Nat.add_0_r.
  - simpl. replace (pos + S (length l1)) with (S pos + length l1) by lia.
    destruct (match op with
              | AndIf => bool_decide (status = 0)
              | OrIf => negb (bool_decide (status = 0))
              end); [destruct (exec (m pos) c r)|]; apply IH.
Qed.

(** A list that ends in [... || true && echo ...] exits with 0. *)
Lemma ends_with_true_echo m pos status r text :
  (and_or m pos [(OrIf, True_); (AndIf, Echo text)] status r).1 = 0.
Proof. simpl. case_bool_decide; simpl; [by subst|done]. Qed.

(** The command of [git_task] exits with 0 whatever its commands do. *)
Lemma git_task_exit_status m now r :
  (run m (git_task_bash_command now) r).1 = 0.
Proof.
  unfold run, git_task_bash_command. cbn [fst snd].
  destruct (exec (m 0) (Cd "/opt/airflow") r) as [status r'].
  match goal with
  | |- (and_or _ _ ?l _ _).1 = _ =>
      change l with (take 18 l ++ drop 18 l)%list
  end.
  rewrite and_or_app. cbn [drop]. apply ends_with_true_echo.
Qed.

(** With nothing changed and nothing staged no command touches the
    repository. *)
Lemma exec_nothing_to_commit breaks c r :
  worktree_changed r = false -> index_changed r = false ->
  (exec breaks c r).2 = r.
Proof.
  destruct r as [wt ix lg]. simpl. intros -> ->.
  destruct c, breaks; reflexivity.
Qed.

Lemma and_or_nothing_to_commit m pos rest status r :
  worktree_changed r = false -> index_changed r = false ->
  (and_or m pos rest status r).2 = r.
Proof.
  intros Hw Hi. revert pos status.
  induction rest as [| [op c] rest IH]; intros pos status; simpl; [done|].
  destruct (match op with
            | AndIf => bool_decide (status = 0)
            | OrIf => negb (bool_decide (status = 0))
            end); [|apply IH].
  pose proof (exec_nothing_to_commit (m pos) c r Hw Hi) as He.
  destruct (exec (m pos) c r) as [status' r']. simpl in He. subst r'.
  apply IH.
Qed.

(** C8.  When the DVC step left the tracked files as they were committed
    and nothing is staged, the command of [git_task] exits with 0 on every
    machine, so the task succeeds, and the commit log is what it was:
    [git commit] exits with 1 without recording anything, and the
    [|| echo "No changes to commit"] after it resets the status. *)
Theorem commit_step_succeeds_without_changes
    (m : machine) (now : string) (r : repo) :
  worktree_changed r = false -> index_changed r = false ->
  run m (git_task_bash_command now) r = (0, r)
  ∧ bash_operator_succeeds (run m (git_task_bash_command now) r).1 = true
  ∧ log (run m (git_task_bash_command now) r).2 = log r
  ∧ exec (m 15) (GitCommit ("Update APOD data version - " ++ now)) r
    = (if m 15 then 128 else 1, r).
Proof.
  intros Hw Hi.
  assert (Hrun : run m (git_task_bash_command now) r = (0, r)).
  { pose proof (git_task_exit_status m now r) as Hst.
    assert (Hr : (run m (git_task_bash_command now) r).2 = r).
    { unfold run.
      pose proof (exec_nothing_to_commit (m 0)
                    (git_task_bash_command now).1 r Hw Hi) as He.
      destruct (exec (m 0) (git_task_bash_command now).1 r) as [st r'].
      simpl in He. subst r'. by apply and_or_nothing_to_commit. }
    destruct (run m (git_task_bash_command now) r) as [st r'].
    simpl in *. by subst. }
  rewrite Hrun. split; [done|]. split; [done|]. split; [done|].
  simpl. rewrite Hi. by destruct (m 15).
Qed.

Lemma commit_step_succeeds_without_changes_witness :
  run Samples.sound_machine (git_task_bash_command "2025-11-13_00-00-07")
    Samples.clean_repo
  = (0, Samples.clean_repo).
Proof.
  apply (commit_step_succeeds_without_changes Samples.sound_machine
           "2025-11-13_00-00-07" Samples.clean_repo); reflexivity.
Defined.

(** For comparison: with a changed [.dvc] file the same command records
    one commit. *)
Lemma commit_step_records_change :
  run Samples.sound_machine (git_task_bash_command "2025-11-13_00-00-07")
    Samples.changed_repo
  = (0, mk_repo false false
          ("Update APOD data version - 2025-11-13_00-00-07"
             :: log Samples.clean_repo)).
Proof. reflexivity. Qed.

End GitTaskProperties.

(** ** A record without a date *)

Section MissingDate.
Import Transform.

(** C10.  A payload whose date is absent, [None] or [NaN] makes the
    transformer raise at every clock time; when the payload is not empty,
    what it raises is the failed date check.  The date is the one field
    that is missing when its key is absent: the other six get a default
    that is not missing, and the extraction time is always set.  And in a
    run whose transform task is handed such a payload on every try,
    neither sink task is started. *)
Theorem missing_date_is_rejected (raw_data : dict) (now : string) :
  raw_data !! "date" = None
  ∨ (∃ v, raw_data !! "date" = Some v ∧ isna v = true) ->
  raised (transform_apod_data (Some raw_data) now) = true
  ∧ (raw_data ≠ ∅ ->
     transform_apod_data (Some raw_data) now
     = Raise (mk_exn AssertionError "Date field cannot be null"))
  ∧ (isna (date (select_fields ∅ now)) = true
     ∧ ∀ (other : dict) key, other !! key = None ->
         let df := select_fields other now in
         (key = "title" -> isna (title df) = false)
         ∧ (key = "explanation" -> isna (explanation df) = false)
         ∧ (key = "url" -> isna (url df) = false)
         ∧ (key = "hdurl" -> isna (hdurl df) = false)
         ∧ (key = "media_type" -> isna (media_type df) = false)
         ∧ (key = "copyright" -> isna (copyright df) = false)
         ∧ isna (extracted_at df) = false)
  ∧ (∀ (b : Dag.behaviour) (clock : nat -> string),
       (∀ n, b Dag.transform_task n
             = negb (raised (transform_apod_data (Some raw_data) (clock n)))) ->
       Dag.execute b Dag.load_postgres_task = Some (Dag.upstream_failed, 0)
       ∧ Dag.execute b Dag.load_csv_task = Some (Dag.upstream_failed, 0)).
Proof.
  intros Hdate.
  assert (Hna : isna (get raw_data "date") = true).
  { unfold get. destruct Hdate as [-> | (v & -> & Hv)]; done. }
  assert (Hraise : ∀ t, raised (transform_apod_data (Some raw_data) t) = true).
  { intros t. unfold transform_apod_data. case_bool_decide; [done|].
    unfold quality_checks. simpl. by rewrite Hna. }
  split; [apply Hraise|]. split; [|split].
  - intros Hne. rewrite transform_nonempty by done.
    unfold quality_checks. simpl. by rewrite Hna.
  - split; [done|]. intros other key Hkey df.
    repeat split; try intros ->; simpl; unfold get_default;
      rewrite ?Hkey; done.
  - intros b clock Hb. apply failed_transform_blocks_sinks.
    intros n. by rewrite Hb, Hraise.
Qed.

Lemma missing_date_is_rejected_witness :
  transform_apod_data (Some Samples.only_explanation) "2025-11-13T00:00:05"
  = Raise (mk_exn AssertionError "Date field cannot be null").
Proof.
  refine (proj1 (proj2 (missing_date_is_rejected Samples.only_explanation
                          "2025-11-13T00:00:05" _)) _).
  - left. reflexivity.
  - apply (bool_decide_unpack _). reflexivity.
Defined.

End MissingDate.


(** * Further properties of the code *)

(** ** Every run of the extractor *)

Section ExtractRuns.
Import Extract.

(** The four ways one iteration of the loop can end. *)
Lemma attempt_body_cases w attempt s :
  (∃ data, succeeds (w (sent s)) data
     ∧ attempt_body w attempt s = (Return (Some data), after_request s))
  ∨ (∃ e, try_raises (w (sent s)) e ∧ is_RequestException e = true
       ∧ attempt ≠ max_retries - 1
       ∧ attempt_body w attempt s
         = (Return None, after_sleep (2 ^ attempt) (after_request s)))
  ∨ (∃ e, try_raises (w (sent s)) e ∧ is_RequestException e = true
       ∧ attempt = max_retries - 1
       ∧ attempt_body w attempt s = (Raise (exhausted e), after_request s))
  ∨ (∃ e, try_raises (w (sent s)) e ∧ is_RequestException e = false
       ∧ attempt_body w attempt s = (Raise e, after_request s)).
Proof.
  destruct (reply_cases (w (sent s))) as [[e He] | [data Hd]].
  - rewrite (attempt_body_raises _ _ _ _ He).
    destruct (is_RequestException e) eqn:Hc.
    + case_bool_decide; [right; right; left | right; left]; eauto 10.
    + right; right; right. eauto.
  - left. exists data. split; [done|]. by apply attempt_body_succeeds.
Qed.

(** How a run ends, whatever the remote side does: after some request [k]
    below 3, all requests before it having raised a [RequestException]. *)
Lemma run_outcome w :
  ∃ k, k < max_retries
    ∧ (run w).2 = mk_net (S k) (trace_upto k)
    ∧ (∀ j, j < k -> ∃ e, try_raises (w j) e ∧ is_RequestException e = true)
    ∧ ((∃ data, succeeds (w k) data ∧ (run w).1 = Return (Some data))
       ∨ (∃ e, try_raises (w k) e ∧ is_RequestException e = true
            ∧ k = max_retries - 1 ∧ (run w).1 = Raise (exhausted e))
       ∨ (∃ e, try_raises (w k) e ∧ is_RequestException e = false
            ∧ (run w).1 = Raise e)).
Proof.
  unfold run, extract_apod_data, max_retries. cbn [seq].
  rewrite for_attempt_cons.
  destruct (attempt_body_cases w 0 (mk_net 0 []))
    as [(d & Hd & ->) | [(e0 & H0 & Hc0 & _ & ->) | [(e & _ & _ & Hk & _)
        | (e & He & Hc & ->)]]]; [| |done|].
  { exists 0. split; [lia|]. split; [done|]. split; [lia|]. eauto. }
  2:{ exists 0. split; [lia|]. split; [done|]. split; [lia|]. eauto 10. }
  rewrite for_attempt_cons.
  set (s1 := after_sleep (2 ^ 0) (after_request (mk_net 0 []))).
  assert (Hbefore1 : ∀ j, j < 1 ->
            ∃ e, try_raises (w j) e ∧ is_RequestException e = true).
  { intros j Hj. replace j with 0 by lia. eauto. }
  destruct (attempt_body_cases w 1 s1)
    as [(d & Hd & ->) | [(e1 & H1 & Hc1 & _ & ->) | [(e & _ & _ & Hk & _)
        | (e & He & Hc & ->)]]]; [| |done|].
  { exists 1. split; [lia|]. split; [done|]. split; [done|]. eauto. }
  2:{ exists 1. split; [lia|]. split; [done|]. split; [done|]. eauto 10. }
  rewrite for_attempt_cons.
  set (s2 := after_sleep (2 ^ 1) (after_request s1)).
  assert (Hbefore2 : ∀ j, j < 2 ->
            ∃ e, try_raises (w j) e ∧ is_RequestException e = true).
  { intros j Hj. destruct j as [|[|j]]; [eauto | eauto | lia]. }
  destruct (attempt_body_cases w 2 s2)
    as [(d & Hd & ->) | [(e & _ & _ & Hk & _) | [(e & He & Hc & _ & ->)
        | (e & He & Hc & ->)]]]; [|done| |].
  - exists 2. split; [lia|]. split; [done|]. split; [done|]. eauto.
  - exists 2. split; [lia|]. split; [done|]. split; [done|]. eauto 10.
  - exists 2. split; [lia|]. split; [done|]. split; [done|]. eauto 10.
Qed.

Lemma trace_upto_counts k :
  k < max_retries ->
  requests_issued (trace_upto k) = S k ∧ Runs.slept (trace_upto k) = 2 ^ k - 1.
Proof.
  unfold max_retries. intros Hk.
  destruct k as [|[|[|k]]]; [split; reflexivity..|lia].
Qed.

(** X1.  Whatever the remote side does, a run sends one, two or three
    requests, sleeps only between two requests, one second after the first
    and two after the second, and so never more than three seconds in all;
    it never sleeps after its last request. *)
Theorem extract_trace_shape (w : world) :
  ∃ k, k < max_retries
    ∧ (run w).2 = mk_net (S k) (trace_upto k)
    ∧ requests_issued (trace (run w).2) = S k
    ∧ Runs.slept (trace (run w).2) = 2 ^ k - 1
    ∧ Runs.slept (trace (run w).2) <= 3
    ∧ last (trace (run w).2) = Some (Request k).
Proof.
  destruct (run_outcome w) as (k & Hk & Hs & _). exists k.
  split; [done|]. split; [done|]. rewrite Hs. cbn [trace].
  destruct (trace_upto_counts k Hk) as [-> ->].
  split; [done|]. split; [done|]. split.
  - unfold max_retries in Hk. destruct k as [|[|[|k]]]; simpl; lia.
  - unfold trace_upto. apply last_snoc.
Qed.

(** X2.  A run that returns hands over the payload the remote side served
    for its last request, never Python's [None]; every request before that
    one raised a [RequestException]. *)
Theorem extract_returns_what_was_served
    (w : world) (result : option dict) (s : net) :
  run w = (Return result, s) ->
  ∃ data, result = Some data
    ∧ 1 <= sent s <= max_retries
    ∧ succeeds (w (sent s - 1)) data
    ∧ ∀ j, j < sent s - 1 ->
        ∃ e, try_raises (w j) e ∧ is_RequestException e = true.
Proof.
  intros Hrun. destruct (run_outcome w) as (k & Hk & Hs & Hbefore & Hend).
  rewrite Hrun in Hs, Hend. simpl in Hs, Hend. subst s. simpl.
  rewrite Nat.sub_0_r.
  destruct Hend as [(data & Hd & [= ->]) | [(e & _ & _ & _ & ?)
    | (e & _ & _ & ?)]]; [|done..].
  exists data. repeat split; [lia | lia | done | done].
Qed.

Lemma extract_returns_what_was_served_witness :
  ∃ data, Some Samples.payload = Some data
    ∧ 1 <= 3 <= max_retries
    ∧ succeeds (Samples.recovering_world (3 - 1)) data
    ∧ ∀ j, j < 3 - 1 ->
        ∃ e, try_raises (Samples.recovering_world j) e
             ∧ is_RequestException e = true.
Proof.
  apply (extract_returns_what_was_served Samples.recovering_world
           (Some Samples.payload)
           (mk_net 3 [Request 0; Sleep 1; Request 1; Sleep 2; Request 2])).
  reflexivity.
Defined.

(** X3.  A run that raises does so in one of two ways.  Either all three
    requests raised a [RequestException] and the run raises a plain
    [Exception] whose text is "Failed to fetch APOD data after 3
    attempts: " followed by the text of the third; or the [try] block of
    the last attempt raised something that is no [RequestException], and
    the run raises that very exception, unwrapped, with no sleep after
    it. *)
Theorem extract_raises_two_ways (w : world) (x : exn) (s : net) :
  run w = (Raise x, s) ->
  (sent s = 3
   ∧ (∀ j, j < 2 -> ∃ e, try_raises (w j) e ∧ is_RequestException e = true)
   ∧ ∃ e, try_raises (w 2) e
          ∧ is_RequestException e = true
          ∧ x = mk_exn Exception
                  ("Failed to fetch APOD data after 3 attempts: " ++ str e))
  ∨ (is_RequestException x = false
     ∧ try_raises (w (sent s - 1)) x
     ∧ trace s = trace_upto (sent s - 1)).
Proof.
  intros Hrun. destruct (run_outcome w) as (k & Hk & Hs & Hbefore & Hend).
  rewrite Hrun in Hs, Hend. simpl in Hs, Hend. subst s. simpl.
  rewrite Nat.sub_0_r.
  destruct Hend as [(data & _ & ?) | [(e & He & Hc & -> & [= ->])
    | (e & He & Hc & [= ->])]]; [done| |].
  - left. split; [done|]. split; [done|]. exists e. done.
  - right. done.
Qed.

Lemma extract_raises_two_ways_witness :
  (3 = 3
   ∧ (∀ j, j < 2 ->
        ∃ e, try_raises (MoreSamples.dead_world j) e
             ∧ is_RequestException e = true)
   ∧ ∃ e, try_raises (MoreSamples.dead_world 2) e
          ∧ is_RequestException e = true
          ∧ mk_exn Exception
              "Failed to fetch APOD data after 3 attempts: Network is unreachable"
            = mk_exn Exception
                ("Failed to fetch APOD data after 3 attempts: " ++ str e))
  ∨ (is_RequestException
       (mk_exn Exception
          "Failed to fetch APOD data after 3 attempts: Network is unreachable")
     = false
     ∧ try_raises (MoreSamples.dead_world (3 - 1))
         (mk_exn Exception
            "Failed to fetch APOD data after 3 attempts: Network is unreachable")
     ∧ trace_upto 2 = trace_upto (3 - 1)).
Proof.
  apply (extract_raises_two_ways MoreSamples.dead_world
           (mk_exn Exception
              "Failed to fetch APOD data after 3 attempts: Network is unreachable")
           (mk_net 3 (trace_upto 2))).
  reflexivity.
Defined.

End ExtractRuns.

(** ** The transformer on every payload *)

Section TransformPayloads.
Import Transform.

(** The transformer on a payload that is not empty, check by check. *)
Lemma transform_check_by_check (raw_data : dict) now :
  raw_data ≠ ∅ ->
  transform_apod_data (Some raw_data) now =
    let df := select_fields raw_data now in
    if isna (date df) then
      Raise (mk_exn AssertionError "Date field cannot be null")
    else if isna (title df) then
      Raise (mk_exn AssertionError "Title field cannot be null")
    else if isin (media_type df) [VStr "image"; VStr "video"] then Return df
    else Raise (mk_exn AssertionError "Invalid media type").
Proof.
  intros Hne. rewrite transform_nonempty by done. cbv zeta.
  unfold quality_checks, assert_.
  destruct (isna (date _)); [done|].
  destruct (isna (title _)); [done|].
  destruct (isin _ _); done.
Qed.

Lemma present_not_missing (raw_data : dict) k dflt :
  isna dflt = false ->
  isna (get_default raw_data k dflt) = false
  ↔ raw_data !! k = None ∨ ∃ v, raw_data !! k = Some v ∧ isna v = false.
Proof.
  intros Hd. unfold get_default.
  destruct (raw_data !! k) as [v|]; simpl; [|tauto].
  split; [eauto|]. intros [? | (v' & [= <-] & ?)]; done.
Qed.

Lemma date_not_missing (raw_data : dict) :
  isna (get raw_data "date") = false
  ↔ ∃ v, raw_data !! "date" = Some v ∧ isna v = false.
Proof.
  unfold get. destruct (raw_data !! "date") as [v|]; simpl.
  - split; [eauto|]. by intros (v' & [= <-] & ?).
  - split; [done|]. by intros (v' & ? & ?).
Qed.

Lemma media_type_accepted (raw_data : dict) :
  isin (get_default raw_data "media_type" (VStr "image"))
    [VStr "image"; VStr "video"] = true
  ↔ raw_data !! "media_type" = None
    ∨ raw_data !! "media_type" = Some (VStr "image")
    ∨ raw_data !! "media_type" = Some (VStr "video").
Proof.
  rewrite isin_image_video. unfold get_default.
  destruct (raw_data !! "media_type") as [v|]; simpl.
  - split; [intros [-> | ->]; auto|].
    intros [? | [[= ->] | [= ->]]]; [done|auto..].
  - split; auto.
Qed.

(** X4.  The transformer returns a record exactly for the payloads that
    carry a date that is not null, a title that is absent or not null, and
    a media type that is absent, image or video; the record is then the
    selected fields stamped with the clock time.  Nothing else about the
    payload matters. *)
Theorem transform_returns_iff
    (raw_data : dict) (now : string) (df : transformed_data) :
  transform_apod_data (Some raw_data) now = Return df
  ↔ df = select_fields raw_data now
    ∧ (∃ v, raw_data !! "date" = Some v ∧ isna v = false)
    ∧ (raw_data !! "title" = None
       ∨ ∃ v, raw_data !! "title" = Some v ∧ isna v = false)
    ∧ (raw_data !! "media_type" = None
       ∨ raw_data !! "media_type" = Some (VStr "image")
       ∨ raw_data !! "media_type" = Some (VStr "video")).
Proof.
  rewrite <- date_not_missing, <- media_type_accepted.
  rewrite <- (present_not_missing raw_data "title" (VStr "N/A")) by done.
  split.
  - intros H. assert (Hne : raw_data ≠ ∅).
    { intros ->. discriminate H. }
    rewrite transform_check_by_check in H by done. cbv zeta in H.
    change (date (select_fields raw_data now)) with (get raw_data "date") in H.
    change (title (select_fields raw_data now))
      with (get_default raw_data "title" (VStr "N/A")) in H.
    change (media_type (select_fields raw_data now))
      with (get_default raw_data "media_type" (VStr "image")) in H.
    destruct (isna (get raw_data "date")); [done|].
    destruct (isna (get_default raw_data "title" _)); [done|].
    destruct (isin _ _); [|done]. by injection H as <-.
  - intros (-> & Hd & Ht & Hm).
    rewrite transform_check_by_check by eauto using get_is_Some. cbv zeta.
    change (date (select_fields raw_data now)) with (get raw_data "date").
    change (title (select_fields raw_data now))
      with (get_default raw_data "title" (VStr "N/A")).
    change (media_type (select_fields raw_data now))
      with (get_default raw_data "media_type" (VStr "image")).
    by rewrite Hd, Ht, Hm.
Qed.

Lemma transform_returns_iff_witness :
  transform_apod_data (Some Samples.payload) "2025-11-13T00:00:05"
  = Return (select_fields Samples.payload "2025-11-13T00:00:05").
Proof.
  apply (proj2 (transform_returns_iff Samples.payload "2025-11-13T00:00:05"
                  (select_fields Samples.payload "2025-11-13T00:00:05"))).
  split; [reflexivity|]. split; [|split].
  - exists (VStr "2025-11-13"). split; reflexivity.
  - right. exists (VStr "Nebula"). split; reflexivity.
  - right. left. reflexivity.
Defined.

(** X5.  A default stands in for an absent key only, never for a key that
    is present with the value null.  On a payload with a date: a null
    title is rejected by the title check and, the title being fine, a null
    media type by the media type check; but a null explanation, url, hdurl
    or copyright is not checked at all and is returned in the record as the
    missing value it is. *)
Theorem explicit_null_is_not_defaulted (raw_data : dict) (now : string) :
  isna (get raw_data "date") = false ->
  (raw_data !! "title" = Some VNone ->
   transform_apod_data (Some raw_data) now
   = Raise (mk_exn AssertionError "Title field cannot be null"))
  ∧ (isna (get_default raw_data "title" (VStr "N/A")) = false ->
     raw_data !! "media_type" = Some VNone ->
     transform_apod_data (Some raw_data) now
     = Raise (mk_exn AssertionError "Invalid media type"))
  ∧ (∀ df, transform_apod_data (Some raw_data) now = Return df ->
       (raw_data !! "explanation" = Some VNone -> explanation df = VNone)
       ∧ (raw_data !! "url" = Some VNone -> url df = VNone)
       ∧ (raw_data !! "hdurl" = Some VNone -> hdurl df = VNone)
       ∧ (raw_data !! "copyright" = Some VNone -> copyright df = VNone)).
Proof.
  intros Hd. assert (Hne : raw_data ≠ ∅) by eauto using get_is_Some.
  split; [|split].
  - intros Ht. rewrite transform_check_by_check by done. cbv zeta.
    change (date (select_fields raw_data now)) with (get raw_data "date").
    rewrite Hd. simpl. unfold get_default. by rewrite Ht.
  - intros Ht Hm. rewrite transform_check_by_check by done. cbv zeta.
    change (date (select_fields raw_data now)) with (get raw_data "date").
    change (title (select_fields raw_data now))
      with (get_default raw_data "title" (VStr "N/A")).
    rewrite Hd, Ht. simpl. unfold get_default at 1. by rewrite Hm.
  - intros df Hdf. rewrite transform_check_by_check in Hdf by done.
    cbv zeta in Hdf.
    destruct (isna (date _)); [done|].
    destruct (isna (title _)); [done|].
    destruct (isin _ _); [|done]. injection Hdf as <-.
    simpl. unfold get_default.
    repeat split; intros ->; reflexivity.
Qed.

Lemma explicit_null_is_not_defaulted_witness :
  transform_apod_data (Some MoreSamples.null_title) "2025-11-13T00:00:05"
  = Raise (mk_exn AssertionError "Title field cannot be null").
Proof.
  refine (proj1 (explicit_null_is_not_defaulted MoreSamples.null_title
                   "2025-11-13T00:00:05" _) _); reflexivity.
Defined.

(** X6.  The transformer reads seven keys of the payload and nothing else:
    two payloads, neither of them empty, that agree on these keys are
    transformed alike, whatever other keys they carry. *)
Theorem transform_reads_seven_keys (raw_data raw_data' : dict) (now : string) :
  raw_data ≠ ∅ -> raw_data' ≠ ∅ ->
  Runs.same_known_keys raw_data raw_data' ->
  transform_apod_data (Some raw_data) now
  = transform_apod_data (Some raw_data') now.
Proof.
  intros Hne Hne' Hsame.
  assert (Hsel : select_fields raw_data now = select_fields raw_data' now).
  { unfold select_fields, get, get_default.
    rewrite !(Hsame "date"), !(Hsame "title"), !(Hsame "explanation"),
      !(Hsame "url"), !(Hsame "hdurl"), !(Hsame "media_type"),
      !(Hsame "copyright"); [done|set_solver..]. }
  rewrite !transform_nonempty by done. by rewrite Hsel.
Qed.

Lemma transform_reads_seven_keys_witness :
  transform_apod_data (Some MoreSamples.verbose_payload) "2025-11-13T00:00:05"
  = transform_apod_data (Some Samples.payload) "2025-11-13T00:00:05".
Proof.
  apply transform_reads_seven_keys.
  - apply (bool_decide_unpack _). reflexivity.
  - apply (bool_decide_unpack _). reflexivity.
  - intros k Hk. apply lookup_insert_ne. intros <-.
    revert Hk. apply (bool_decide_unpack _). reflexivity.
Defined.

End TransformPayloads.

(** ** The keyed store under retries and over many runs *)

Section PostgresRuns.
Import Sink.

Lemma insert_twice data tbl :
  insert_on_conflict_date data (insert_on_conflict_date data tbl)
  = insert_on_conflict_date data tbl.
Proof.
  induction tbl as [| x tbl IH]; simpl.
  - rewrite decide_True by done. by rewrite do_update_same_key.
  - destruct (decide (date x = date data)) as [Heq | Hne]; simpl.
    + rewrite do_update_same_key by done.
      rewrite decide_True by done. by rewrite do_update_same_key.
    + rewrite decide_False by done. by rewrite IH.
Qed.

(** X7.  A load can be repeated.  Whatever went wrong in the first try, or
    nothing, a second, fault-free try of the same load leaves the table a
    single fault-free load would have left.  A try leaves the table either
    untouched or as the fault-free load leaves it, and untouched when a
    call of the [try] block raised before the server committed.  When a
    call of the [try] block raises and neither the rollback nor the
    closing does, the task raises the wrapped exception; when the rollback
    raises on an open connection and the closing does not, the exception
    of the rollback leaves the task instead. *)
Theorem load_to_postgres_retry
    (fault : option db_fault) (data : row) (tbl : list row) :
  load_to_postgres None data (load_to_postgres fault data tbl).2
  = (Return tt, insert_on_conflict_date data tbl)
  ∧ ((load_to_postgres fault data tbl).2 = tbl
     ∨ (load_to_postgres fault data tbl).2
       = insert_on_conflict_date data tbl)
  ∧ (∀ f step e, fault = Some f -> in_try f = Some (step, e) ->
       (step = Connect ∨ step = OpenCursor ∨ step = Execute
        ∨ step = Commit false ->
        (load_to_postgres fault data tbl).2 = tbl)
       ∧ (in_rollback f = None -> in_close f = None ->
          (load_to_postgres fault data tbl).1
          = Raise (mk_exn Exception ("PostgreSQL load failed: " ++ str e)))
       ∧ (∀ e', step ≠ Connect ->
            in_rollback f = Some e' -> in_close f = None ->
            (load_to_postgres fault data tbl).1 = Raise e')).
Proof.
  split; [|split].
  - destruct fault as [f|]; simpl; [|by rewrite insert_twice].
    destruct (committed f); by rewrite ?insert_twice.
  - destruct fault as [f|]; simpl; [|by right].
    destruct (committed f); auto.
  - intros f step e -> Htry. simpl. unfold committed, raised_by.
    rewrite Htry. split; [|split].
    + by intros [-> | [-> | [-> | ->]]].
    + intros -> ->. by destruct step.
    + intros e' Hstep -> ->. by destruct step.
Qed.

Lemma load_to_postgres_retry_witness :
  load_to_postgres (Some MoreSamples.commit_times_out) Samples.nov12
    [Samples.nov11]
  = (Raise (mk_exn Exception "PostgreSQL load failed: connection timed out"),
     [Samples.nov11])
  ∧ load_to_postgres (Some MoreSamples.connection_lost) Samples.nov12
      [Samples.nov11]
    = (Raise (mk_exn Exception "connection already closed"),
       [Samples.nov11]).
Proof.
  pose proof (proj2 (proj2 (load_to_postgres_retry
    (Some MoreSamples.commit_times_out) Samples.nov12 [Samples.nov11]))
    MoreSamples.commit_times_out (Commit false) MoreSamples.timed_out
    eq_refl eq_refl) as (H1 & H2 & _).
  pose proof (proj2 (proj2 (load_to_postgres_retry
    (Some MoreSamples.connection_lost) Samples.nov12 [Samples.nov11]))
    MoreSamples.connection_lost Execute MoreSamples.timed_out
    eq_refl eq_refl) as (H3 & _ & H4).
  split; apply injective_projections; simpl.
  - by apply H2.
  - apply H1. auto.
  - by apply H4.
  - apply H3. auto.
Defined.

Lemma filter_insert_other d data tbl :
  d ≠ date data ->
  filter (fun r => date r = d) (insert_on_conflict_date data tbl)
  = filter (fun r => date r = d) tbl.
Proof.
  intros Hd. induction tbl as [| x tbl IH]; simpl.
  - by rewrite filter_cons_False.
  - destruct (decide (date x = date data)) as [Heq | Hne].
    + rewrite do_update_same_key by done.
      rewrite !(filter_cons_False (fun r => date r = d)); [done|congruence|done].
    + rewrite !(filter_cons (fun r => date r = d)), IH. done.
Qed.

Lemma filter_insert_same data tbl :
  NoDup (date <$> tbl) ->
  filter (fun r => date r = date data) (insert_on_conflict_date data tbl)
  = [data].
Proof.
  intros Hnd. destruct (decide (date data ∈ date <$> tbl)) as [Hin | Hout].
  - apply (update_present data tbl Hnd Hin).
  - rewrite insert_absent, filter_app, filter_date_absent by done.
    by rewrite filter_cons_True.
Qed.

Lemma load_all_to_postgres_snoc records data tbl :
  Runs.load_all_to_postgres (records ++ [data]) tbl
  = insert_on_conflict_date data (Runs.load_all_to_postgres records tbl).
Proof. unfold Runs.load_all_to_postgres. by rewrite foldl_snoc. Qed.

Lemma last_loaded_snoc d records data :
  Runs.last_loaded d (records ++ [data])
  = if decide (date data = d) then Some data else Runs.last_loaded d records.
Proof.
  unfold Runs.last_loaded. rewrite filter_app.
  destruct (decide (date data = d)) as [Heq | Hne].
  - rewrite (filter_cons_True (fun r => date r = d)) by done.
    rewrite filter_nil. apply last_snoc.
  - rewrite (filter_cons_False (fun r => date r = d)) by done.
    by rewrite filter_nil, app_nil_r.
Qed.

Lemma store_invariant records tbl :
  NoDup (date <$> tbl) ->
  let out := Runs.load_all_to_postgres records tbl in
  NoDup (date <$> out)
  ∧ ∀ d, filter (fun r => date r = d) out
         = match Runs.last_loaded d records with
           | Some r => [r]
           | None => filter (fun r => date r = d) tbl
           end.
Proof.
  intros Hnd. induction records as [| data records IH] using rev_ind.
  - split; done.
  - cbv zeta in *. destruct IH as [IHnd IHf].
    rewrite load_all_to_postgres_snoc. split.
    + by apply insert_keeps_unique.
    + intros d. rewrite last_loaded_snoc.
      destruct (decide (date data = d)) as [<- | Hne].
      * by apply filter_insert_same.
      * rewrite filter_insert_other by done. apply IHf.
Qed.

(** X9.  Over any number of fault-free loads into a table with unique
    dates, the dates stay unique; for every date that was loaded the table
    holds exactly one row, the record loaded last for it, so that the
    verification query of each load counts 1; and the rows of dates that
    were never loaded are the rows the table started with. *)
Theorem store_holds_last_loaded (records tbl : list row) :
  NoDup (date <$> tbl) ->
  let out := Runs.load_all_to_postgres records tbl in
  NoDup (date <$> out)
  ∧ (∀ d r, Runs.last_loaded d records = Some r ->
       filter (fun x => date x = d) out = [r] ∧ select_count d out = 1)
  ∧ (∀ data, data ∈ records -> select_count (date data) out = 1)
  ∧ (∀ d, d ∉ date <$> records ->
       filter (fun x => date x = d) out = filter (fun x => date x = d) tbl).
Proof.
  intros Hnd out. destruct (store_invariant records tbl Hnd) as [Hout Hf].
  fold out in Hout, Hf. split; [done|]. split; [|split].
  - intros d r Hr. unfold select_count. specialize (Hf d).
    rewrite Hr in Hf. by rewrite Hf.
  - intros data Hin. unfold select_count. specialize (Hf (date data)).
    destruct (Runs.last_loaded (date data) records) as [r|] eqn:Hl.
    + by rewrite Hf.
    + unfold Runs.last_loaded in Hl. apply last_None in Hl.
      apply (filter_nil_not_elem_of _ _ data) in Hl; done.
  - intros d Hd. specialize (Hf d).
    destruct (Runs.last_loaded d records) as [r|] eqn:Hl; [|done].
    unfold Runs.last_loaded in Hl. apply last_Some_elem_of in Hl.
    apply list_elem_of_filter in Hl as [<- Hl].
    destruct Hd. by apply list_elem_of_fmap_2.
Qed.

Lemma store_holds_last_loaded_witness :
  filter (fun x => date x = "2025-11-12")
    (Runs.load_all_to_postgres MoreSamples.four_loads [])
  = [Samples.nov12_again]
  ∧ select_count "2025-11-12"
      (Runs.load_all_to_postgres MoreSamples.four_loads []) = 1.
Proof.
  apply (proj1 (proj2 (store_holds_last_loaded MoreSamples.four_loads []
                         (NoDup_nil_2 (A:=string))))).
  reflexivity.
Defined.

End PostgresRuns.

(** ** The two shell commands on every machine *)

Section ShellTasks.

Lemma first_positions_below n m pos : pos < n -> Runs.first_positions n m pos = m pos.
Proof.
  intros H. unfold Runs.first_positions.
  rewrite (nth_indep _ false (m 0)) by (rewrite length_fmap, length_seq; lia).
  change (m 0) with ((fun x => m x) 0). rewrite (map_nth m). by rewrite seq_nth.
Qed.

Lemma bash_and_or_ext m m' pos rest status r :
  (forall p, pos <= p < pos + length rest -> m p = m' p) ->
  Bash.and_or m pos rest status r = Bash.and_or m' pos rest status r.
Proof.
  revert pos status r. induction rest as [| [op c] rest IH]; intros pos status r H; [done|].
  simpl in *. rewrite (H pos) by lia.
  destruct (match op with Bash.AndIf => _ | Bash.OrIf => _ end).
  - destruct (Bash.exec (m' pos) c r). apply IH. intros p Hp. apply H. lia.
  - apply IH. intros p Hp. apply H. lia.
Qed.

Lemma git_task_first_positions m now r :
  Bash.run m (Bash.git_task_bash_command now) r
  = Bash.run (Runs.first_positions 21 m) (Bash.git_task_bash_command now) r.
Proof.
  unfold Bash.run. cbn [fst snd Bash.git_task_bash_command].
  rewrite (first_positions_below 21 m 0) by lia.
  destruct (Bash.exec (m 0) _ r) as [st r'].
  apply bash_and_or_ext. intros p Hp. cbn [length] in Hp.
  symmetry. apply first_positions_below. lia.
Qed.

Lemma dvc_and_or_ext m m' pos rest status w :
  (forall p, pos <= p < pos + length rest -> m p = m' p) ->
  Dvc.and_or m pos rest status w = Dvc.and_or m' pos rest status w.
Proof.
  revert pos status w. induction rest as [| [op c] rest IH]; intros pos status w H; [done|].
  simpl in *. rewrite (H pos) by lia.
  destruct (match op with Bash.AndIf => _ | Bash.OrIf => _ end).
  - destruct (Dvc.exec (m' pos) c w). apply IH. intros p Hp. apply H. lia.
  - apply IH. intros p Hp. apply H. lia.
Qed.

Lemma dvc_task_first_positions m pwd w :
  Dvc.run m (Dvc.dvc_task_bash_command pwd) w
  = Dvc.run (Runs.first_positions 13 m) (Dvc.dvc_task_bash_command pwd) w.
Proof.
  unfold Dvc.run. cbn [fst snd Dvc.dvc_task_bash_command].
  rewrite (first_positions_below 13 m 0) by lia.
  destruct (Dvc.exec (m 0) _ w) as [st w'].
  apply dvc_and_or_ext. intros p Hp. cbn [length] in Hp.
  symmetry. apply first_positions_below. lia.
Qed.

Ltac git_mask m :=
  rewrite !(git_task_first_positions m); unfold Runs.first_positions;
  cbn [fmap list_fmap seq].

Ltac dvc_mask m :=
  rewrite !(dvc_task_first_positions m); unfold Runs.first_positions;
  cbn [fmap list_fmap seq].

Ltac split_bits m positions :=
  match positions with
  | [] => idtac
  | ?p :: ?rest =>
      let b := fresh "b" in
      generalize (m p); intros b; destruct b; split_bits m rest
  end.

Ltac free_bits m positions :=
  match positions with
  | [] => idtac
  | ?p :: ?rest =>
      let b := fresh "b" in
      generalize (m p); intros b; free_bits m rest
  end.

(** X13.  The command of [git_task] exits with 0 on every machine and in
    every state of the repository, so the task cannot fail; and it never
    rewrites history: the log afterwards is the log before, with at most
    the one new commit on top. *)
Theorem commit_step_never_fails
    (m : Bash.machine) (now : string) (r : Bash.repo) :
  let end_ := Bash.run m (Bash.git_task_bash_command now) r in
  end_.1 = 0
  ∧ Bash.bash_operator_succeeds end_.1 = true
  ∧ (Bash.log end_.2 = Bash.log r
     ∨ Bash.log end_.2
       = ("Update APOD data version - " ++ now) :: Bash.log r).
Proof.
  cbv zeta. destruct r as [[] [] lg]; git_mask m;
    free_bits m [1; 5; 7; 8; 10; 11; 13; 14; 16; 17; 19; 20];
    split_bits m [0; 2; 3; 4; 6; 9; 12; 15; 18];
    vm_compute; auto.
Qed.

(** X14.  When [cd], [git add] and [git commit] do not fail for a reason of
    their own and the tracked files changed or a change is staged, the
    command records exactly one commit with the time-stamped message and
    leaves nothing changed or staged, whether or not the [git config],
    [git init], [git status] and [git log] around them fail. *)
Theorem commit_step_records_changes
    (m : Bash.machine) (now : string) (r : Bash.repo) :
  m 0 = false -> m 12 = false -> m 15 = false ->
  Bash.worktree_changed r = true ∨ Bash.index_changed r = true ->
  Bash.run m (Bash.git_task_bash_command now) r
  = (0, Bash.mk_repo false false
          (("Update APOD data version - " ++ now) :: Bash.log r)).
Proof.
  intros H0 H12 H15 Hch. git_mask m. rewrite H0, H12, H15.
  destruct r as [wt ix lg]. simpl in Hch.
  free_bits m [1; 5; 7; 8; 10; 11; 13; 14; 16; 17; 19; 20];
    split_bits m [2; 3; 4; 6; 9; 18];
    destruct wt, ix; try (by destruct Hch); vm_compute; reflexivity.
Qed.

Lemma commit_step_records_changes_witness :
  Bash.run Samples.sound_machine
    (Bash.git_task_bash_command "2025-11-13_00-00-07") Samples.changed_repo
  = (0, Bash.mk_repo false false
          (("Update APOD data version - " ++ "2025-11-13_00-00-07")
             :: Bash.log Samples.changed_repo)).
Proof.
  apply commit_step_records_changes; try reflexivity. left. reflexivity.
Defined.

(** X15.  A failure of [git add] or of [git commit] is masked by the
    [|| true] and [|| echo] that follow them: with nothing staged
    beforehand the command still exits with 0, and the log is left as it
    was even when the tracked files changed. *)
Theorem add_or_commit_failure_is_masked
    (m : Bash.machine) (now : string) (r : Bash.repo) :
  m 12 = true ∨ m 15 = true ->
  Bash.index_changed r = false ->
  (Bash.run m (Bash.git_task_bash_command now) r).1 = 0
  ∧ Bash.log (Bash.run m (Bash.git_task_bash_command now) r).2 = Bash.log r.
Proof.
  intros Hm Hix. destruct r as [wt ix lg]. simpl in Hix. subst ix.
  git_mask m. revert Hm.
  free_bits m [1; 5; 7; 8; 10; 11; 13; 14; 16; 17; 19; 20];
    split_bits m [0; 2; 3; 4; 6; 9; 12; 15; 18];
    intros Hm; try (by destruct Hm); destruct wt; vm_compute; auto.
Qed.

Lemma add_or_commit_failure_is_masked_witness :
  (Bash.run MoreSamples.missing_pathspec
     (Bash.git_task_bash_command "2025-11-13_00-00-07")
     Samples.changed_repo).1 = 0
  ∧ Bash.log (Bash.run MoreSamples.missing_pathspec
                (Bash.git_task_bash_command "2025-11-13_00-00-07")
                Samples.changed_repo).2
    = Bash.log Samples.changed_repo.
Proof.
  apply add_or_commit_failure_is_masked; [left|]; reflexivity.
Defined.

Lemma dvc_run_tracked m pwd w :
  Dvc.dvc_file w = Dvc.csv_md5 w ->
  (Dvc.run m (Dvc.dvc_task_bash_command pwd) w).2 = w.
Proof.
  destruct w as [[md5|] dvc]; simpl; intros ->; dvc_mask m;
    free_bits m [1; 2; 4; 5; 7; 9; 11];
    split_bits m [0; 3; 6; 8; 10; 12]; vm_compute; reflexivity.
Qed.

Lemma dvc_run_exit_status m pwd w :
  m 0 = false ->
  (Dvc.run m (Dvc.dvc_task_bash_command pwd) w).1 = 0
  ↔ Dvc.csv_md5 w ≠ None
    ∧ m 6 = false ∧ m 8 = false ∧ m 10 = false ∧ m 12 = false.
Proof.
  dvc_mask m. destruct w as [[md5|] dvc];
    free_bits m [1; 2; 4; 5; 7; 9; 11];
    split_bits m [0; 3; 6; 8; 10; 12];
    vm_compute; intros ?; split; try done;
    try (intros (? & ? & ? & ? & ?); done).
Qed.

Lemma dvc_run_records_checksum m pwd w :
  (Dvc.run m (Dvc.dvc_task_bash_command pwd) w).1 = 0 ->
  (Dvc.run m (Dvc.dvc_task_bash_command pwd) w).2
  = Dvc.mk_workspace (Dvc.csv_md5 w) (Dvc.csv_md5 w).
Proof.
  dvc_mask m. destruct w as [[md5|] dvc];
    free_bits m [1; 2; 4; 5; 7; 9; 11];
    split_bits m [0; 3; 6; 8; 10; 12];
    vm_compute; done.
Qed.

(** X16.  When its [cd /opt/airflow] succeeds, the command of [dvc_task]
    exits with 0 exactly when the CSV file is there and [dvc add], the
    [dvc status] after it, [ls] and [cat] do not fail; the [.dvc] file then
    holds the checksum of the CSV file.  A failing first [dvc status] does
    not change that: the [|| true] after it lets [dvc add] run all the
    same. *)
Theorem dvc_step_succeeds_iff
    (m : Bash.machine) (pwd : string) (w : Dvc.workspace) :
  m 0 = false ->
  ((Dvc.run m (Dvc.dvc_task_bash_command pwd) w).1 = 0
   ↔ Dvc.csv_md5 w ≠ None
     ∧ m 6 = false ∧ m 8 = false ∧ m 10 = false ∧ m 12 = false)
  ∧ ((Dvc.run m (Dvc.dvc_task_bash_command pwd) w).1 = 0 ->
     (Dvc.run m (Dvc.dvc_task_bash_command pwd) w).2
     = Dvc.mk_workspace (Dvc.csv_md5 w) (Dvc.csv_md5 w)).
Proof.
  intros Hcd.
  split; [by apply dvc_run_exit_status | apply dvc_run_records_checksum].
Qed.

Lemma dvc_step_succeeds_iff_witness :
  (Dvc.run MoreSamples.first_status_fails
     (Dvc.dvc_task_bash_command "/opt/airflow")
     MoreSamples.stale_workspace).1 = 0
  ∧ (Dvc.run MoreSamples.first_status_fails
       (Dvc.dvc_task_bash_command "/opt/airflow")
       MoreSamples.stale_workspace).2
    = Dvc.mk_workspace (Dvc.csv_md5 MoreSamples.stale_workspace)
        (Dvc.csv_md5 MoreSamples.stale_workspace).
Proof.
  pose proof (dvc_step_succeeds_iff MoreSamples.first_status_fails
                "/opt/airflow" MoreSamples.stale_workspace eq_refl)
    as [Hiff Hstate].
  assert (H0 : (Dvc.run MoreSamples.first_status_fails
                  (Dvc.dvc_task_bash_command "/opt/airflow")
                  MoreSamples.stale_workspace).1 = 0).
  { apply (proj2 Hiff). repeat split; done. }
  split; [exact H0 | exact (Hstate H0)].
Defined.

(** X17.  On a workspace whose [.dvc] file already holds the checksum of
    the CSV file the command changes nothing, whatever fails; and a second
    run after a run that exited with 0 changes nothing either. *)
Theorem dvc_step_is_idempotent
    (m m' : Bash.machine) (pwd : string) (w : Dvc.workspace) :
  (Dvc.dvc_file w = Dvc.csv_md5 w ->
   (Dvc.run m (Dvc.dvc_task_bash_command pwd) w).2 = w)
  ∧ ((Dvc.run m (Dvc.dvc_task_bash_command pwd) w).1 = 0 ->
     (Dvc.run m' (Dvc.dvc_task_bash_command pwd)
        (Dvc.run m (Dvc.dvc_task_bash_command pwd) w).2).2
     = (Dvc.run m (Dvc.dvc_task_bash_command pwd) w).2).
Proof.
  split; [apply dvc_run_tracked|].
  intros H. rewrite (dvc_run_records_checksum m pwd w H).
  by apply dvc_run_tracked.
Qed.

Lemma dvc_step_is_idempotent_witness :
  (Dvc.run Samples.sound_machine (Dvc.dvc_task_bash_command "/opt/airflow")
     MoreSamples.tracked_workspace).2
  = MoreSamples.tracked_workspace.
Proof.
  apply (proj1 (dvc_step_is_idempotent Samples.sound_machine
                  Samples.sound_machine "/opt/airflow"
                  MoreSamples.tracked_workspace)).
  reflexivity.
Defined.

End ShellTasks.

(** ** Every run of the DAG *)

Section DagRuns.
Import Dag.

Ltac case_task b t :=
  let st := fresh "st" in let n := fresh "n" in
  let E := fresh "E" in let Hn := fresh "Hn" in
  destruct (run_task_cases b t) as (st & n & E & [-> | ->] & Hn);
  rewrite ?E in *.

Ltac case_tasks b :=
  case_task b extract_task; case_task b transform_task;
  case_task b load_postgres_task; case_task b load_csv_task;
  case_task b dvc_task; case_task b git_task.

(** X18.  A run ends in [success] exactly when every one of the six tasks
    did: no task can be left out of a successful run. *)
Theorem run_succeeds_iff_all_succeed (b : behaviour) :
  dag_run_state (execute b) = success
  ↔ ∀ t, state_of (execute b) t = Some success.
Proof.
  rewrite dag_run_state_git. split.
  - intros H t. revert H. unfold state_of.
    rewrite !execute_closed_form. cbv zeta.
    case_tasks b; destruct t; simpl; done.
  - intros H. by rewrite (H git_task), decide_True.
Qed.

Lemma run_succeeds_iff_all_succeed_witness :
  dag_run_state (execute MoreSamples.healthy_run) = success.
Proof.
  apply (proj2 (run_succeeds_iff_all_succeed MoreSamples.healthy_run)).
  intros []; reflexivity.
Defined.

Lemma run_task_bound b t : (run_task b t).2 <= 1 + retries default_args.
Proof.
  unfold run_task. pose proof (run_tries_count (b t) 1 (task_retries t)) as H.
  unfold task_retries, own_retries in H. simpl in *. lia.
Qed.

(** X19.  In every run and along every edge of the DAG: a task is tried
    only after its upstream task ended in [success]; no task is tried more
    than 1 + [retries] = 3 times; a task ends in [upstream_failed] exactly
    when it was never tried; and a task whose upstream task did not succeed
    is not tried at all. *)
Theorem tasks_start_after_upstream (b : behaviour) :
  (∀ u t, (u, t) ∈ edges -> 0 < tries_of (execute b) t ->
     state_of (execute b) u = Some success)
  ∧ (∀ t, tries_of (execute b) t <= 1 + retries default_args)
  ∧ (∀ t, tries_of (execute b) t = 0
          ↔ state_of (execute b) t = Some upstream_failed)
  ∧ (∀ u t, (u, t) ∈ edges -> state_of (execute b) u ≠ Some success ->
       execute b t = Some (upstream_failed, 0)).
Proof.
  assert (Hedges : ∀ u t, (u, t) ∈ edges ->
            (u, t) = (extract_task, transform_task)
            ∨ (u, t) = (transform_task, load_postgres_task)
            ∨ (u, t) = (transform_task, load_csv_task)
            ∨ (u, t) = (load_postgres_task, dvc_task)
            ∨ (u, t) = (load_csv_task, dvc_task)
            ∨ (u, t) = (dvc_task, git_task)).
  { intros u t H. change edges with
      [(extract_task, transform_task); (transform_task, load_postgres_task);
       (transform_task, load_csv_task); (load_postgres_task, dvc_task);
       (load_csv_task, dvc_task); (dvc_task, git_task)] in H.
    rewrite !elem_of_cons, elem_of_nil in H. tauto. }
  pose proof (run_task_bound b) as Hb. simpl in Hb.
  split; [|split; [|split]].
  - intros u t He. apply Hedges in He. unfold state_of, tries_of.
    rewrite !execute_closed_form. cbv zeta.
    case_tasks b;
      destruct He as [[= -> ->] | [[= -> ->] | [[= -> ->] | [[= -> ->]
        | [[= -> ->] | [= -> ->]]]]]]; simpl; intros; first [done | lia].
  - intros t. unfold tries_of. rewrite execute_closed_form. cbv zeta.
    pose proof (Hb extract_task). pose proof (Hb transform_task).
    pose proof (Hb load_postgres_task). pose proof (Hb load_csv_task).
    pose proof (Hb dvc_task). pose proof (Hb git_task).
    destruct t; simpl; repeat case_match; simpl; lia.
  - intros t. unfold state_of, tries_of. rewrite execute_closed_form. cbv zeta.
    case_tasks b; destruct t; simpl; split; intros; first [done | lia].
  - intros u t He. apply Hedges in He. unfold state_of.
    rewrite !execute_closed_form. cbv zeta.
    case_tasks b;
      destruct He as [[= -> ->] | [[= -> ->] | [[= -> ->] | [[= -> ->]
        | [[= -> ->] | [= -> ->]]]]]]; simpl; intros; done.
Qed.

Lemma tasks_start_after_upstream_witness :
  state_of (execute Samples.postgres_down_run) transform_task = Some success.
Proof.
  apply (proj1 (tasks_start_after_upstream Samples.postgres_down_run)
           transform_task load_postgres_task).
  - apply (bool_decide_unpack _). reflexivity.
  - apply (bool_decide_unpack _). reflexivity.
Defined.

Lemma run_tries_ext f g n left_ :
  (∀ k, f k = g k) -> run_tries f n left_ = run_tries g n left_.
Proof.
  intros H. revert n. induction left_ as [| left_ IH]; intros n; simpl;
    rewrite H; [done|]. by rewrite IH.
Qed.

Lemma run_task_ext b b' t :
  (∀ n, b t n = b' t n) -> run_task b t = run_task b' t.
Proof. intros H. unfold run_task. by apply run_tries_ext. Qed.

(** X20.  The two sink tasks do not depend on each other: what the
    PostgreSQL task does on its tries has no influence on the state and the
    tries of the CSV task, and the other way round. *)
Theorem sink_tasks_are_independent (b b' : behaviour) :
  ((∀ t n, t ≠ load_postgres_task -> b t n = b' t n) ->
   execute b load_csv_task = execute b' load_csv_task)
  ∧ ((∀ t n, t ≠ load_csv_task -> b t n = b' t n) ->
     execute b load_postgres_task = execute b' load_postgres_task).
Proof.
  split; intros H; rewrite !execute_closed_form; cbv zeta.
  - rewrite (run_task_ext b b' extract_task), (run_task_ext b b' transform_task),
      (run_task_ext b b' load_csv_task); [done|intros n; by apply H..].
  - rewrite (run_task_ext b b' extract_task), (run_task_ext b b' transform_task),
      (run_task_ext b b' load_postgres_task); [done|intros n; by apply H..].
Qed.

Lemma sink_tasks_are_independent_witness :
  execute Samples.postgres_down_run load_csv_task
  = execute MoreSamples.healthy_run load_csv_task.
Proof.
  apply (proj1 (sink_tasks_are_independent Samples.postgres_down_run
                  MoreSamples.healthy_run)).
  intros t n Ht. destruct t; [reflexivity..|done|reflexivity|reflexivity|reflexivity].
Defined.

Lemma run_all_fail (w : Extract.world) :
  (∀ j, j < Extract.max_retries -> ∃ e, Extract.fails (w j) e) ->
  ∃ e, Extract.fails (w 2) e
    ∧ Extract.run w
      = (Raise (Extract.exhausted e), Extract.mk_net 3 (Extract.trace_upto 2)).
Proof.
  unfold Extract.max_retries. intros H.
  destruct (H 0) as [e0 H0]; [lia|]. destruct (H 1) as [e1 H1]; [lia|].
  destruct (H 2) as [e2 H2]; [lia|]. exists e2. split; [done|].
  destruct (fails_try_raises _ _ H0) as [R0 C0].
  destruct (fails_try_raises _ _ H1) as [R1 C1].
  destruct (fails_try_raises _ _ H2) as [R2 C2].
  unfold Extract.run, Extract.extract_apod_data, Extract.max_retries.
  cbn [seq]. rewrite for_attempt_cons.
  rewrite (attempt_body_raises w 0 (Extract.mk_net 0 []) e0 R0), C0.
  simpl bool_decide. cbv iota. rewrite for_attempt_cons.
  match goal with
  | |- context [Extract.attempt_body ?w ?a ?s] =>
      rewrite (attempt_body_raises w a s e1 R1), C1
  end.
  simpl bool_decide. cbv iota. rewrite for_attempt_cons.
  match goal with
  | |- context [Extract.attempt_body ?w ?a ?s] =>
      rewrite (attempt_body_raises w a s e2 R2), C2
  end.
  reflexivity.
Qed.

(** X21.  The extract task takes the scheduler's retries like any other
    task, on top of the loop inside the function.  When every request of
    every try meets a transport or HTTP failure, the task is tried three
    times and sends three requests on each try, nine in all, before it ends
    in [failed]; no other task is started and the run fails. *)
Theorem scheduler_retries_multiply_requests
    (ws : nat -> Extract.world) (b : behaviour) :
  (∀ n, b extract_task n = Runs.extract_callable ws n) ->
  (∀ n j, j < Extract.max_retries -> ∃ e, Extract.fails (ws n j) e) ->
  execute b extract_task = Some (failed, 3)
  ∧ Runs.requests_of_tries ws 3 = 9
  ∧ (∀ t, t ≠ extract_task -> execute b t = Some (upstream_failed, 0))
  ∧ dag_run_state (execute b) = failed.
Proof.
  intros Hb Hdown.
  assert (Hrun : ∀ n, Extract.sent (Extract.run (ws n)).2 = 3
                      ∧ raised (Extract.run (ws n)).1 = true).
  { intros n. destruct (run_all_fail (ws n) (Hdown n)) as (e & _ & ->). done. }
  assert (Htask : run_task b extract_task = (failed, 3)).
  { unfold run_task. apply (run_tries_always_failing _ 1 2).
    intros k. rewrite Hb. unfold Runs.extract_callable.
    by rewrite (proj2 (Hrun k)). }
  split; [|split; [|split]].
  - by rewrite execute_closed_form, Htask.
  - unfold Runs.requests_of_tries. cbn [seq fmap list_fmap].
    rewrite (proj1 (Hrun 1)), (proj1 (Hrun 2)), (proj1 (Hrun 3)). done.
  - intros t Ht. rewrite execute_closed_form. cbv zeta. rewrite Htask.
    destruct t; done.
  - rewrite dag_run_state_git. unfold state_of.
    rewrite execute_closed_form. cbv zeta. by rewrite Htask.
Qed.

Lemma scheduler_retries_multiply_requests_witness :
  execute MoreSamples.outage_run extract_task = Some (failed, 3)
  ∧ Runs.requests_of_tries (fun _ => MoreSamples.dead_world) 3 = 9
  ∧ (∀ t, t ≠ extract_task ->
       execute MoreSamples.outage_run t = Some (upstream_failed, 0))
  ∧ dag_run_state (execute MoreSamples.outage_run) = failed.
Proof.
  apply (scheduler_retries_multiply_requests (fun _ => MoreSamples.dead_world)
           MoreSamples.outage_run).
  - intros n. reflexivity.
  - intros n j Hj. exists Samples.no_route. left. split; reflexivity.
Defined.

End DagRuns.

(** ** The snapshot file *)

Section CsvLoad.
Import Csv.

#[local] Instance date_le_total : Total date_le.
Proof.
  intros x y. unfold date_le.
  destruct (cell x "date") as [| | [] | z | s],
           (cell y "date") as [| | [] | z' | s']; simpl; auto;
    try apply String.leb_total; rewrite !Z.leb_le; lia.
Qed.

Lemma sort_values_permutation df : sort_values_date_descending df ≡ₚ df.
Proof.
  unfold sort_values_date_descending.
  rewrite reverse_Permutation, merge_sort_Permutation, reverse_Permutation.
  apply filter_app_complement.
Qed.

Lemma text_dates_dated df :
  text_dates df ->
  filter (fun r => Transform.isna (cell r "date") = false) df = df
  ∧ filter (fun r => ¬ Transform.isna (cell r "date") = false) df = [].
Proof.
  induction df as [| x df IH]; [done|]. intros H.
  destruct (H x) as [s Hs]; [left|].
  destruct IH as [IH1 IH2]; [intros r Hr; apply H; by right|].
  split.
  - rewrite filter_cons_True by (by rewrite Hs). by rewrite IH1.
  - rewrite filter_cons_False by (rewrite Hs; simpl; auto). done.
Qed.

Lemma sort_values_sorted df :
  text_dates df -> Sorted (flip date_le) (sort_values_date_descending df).
Proof.
  intros H. unfold sort_values_date_descending.
  destruct (text_dates_dated df H) as [-> ->]. rewrite app_nil_r.
  apply Sorted_reverse, Sorted_merge_sort, _.
Qed.

Lemma text_dates_not_mixed df : text_dates df -> mixed (dates df) = false.
Proof.
  intros H. unfold mixed. apply andb_false_intro2.
  induction df as [| x df IH]; [done|]. simpl.
  destruct (H x) as [s ->]; [left|]. simpl. apply IH.
  intros r Hr. apply H. by right.
Qed.

Lemma ne_text s d : ne (VStr s) (VStr d) = true ↔ s ≠ d.
Proof.
  unfold ne. simpl. rewrite negb_true_iff, bool_decide_eq_false. done.
Qed.

Lemma kept_text_dates d df :
  text_dates df ->
  filter (fun r => ne (cell r "date") (VStr d) = true) df
  = filter (fun r => cell r "date" ≠ VStr d) df.
Proof.
  induction df as [| x df IH]; [done|]. intros H.
  destruct (H x) as [s Hs]; [left|].
  rewrite !filter_cons, IH by (intros r Hr; apply H; by right).
  rewrite Hs. destruct (decide (s = d)) as [-> | Hne].
  - rewrite decide_False by (rewrite ne_text; auto).
    rewrite decide_False by auto. done.
  - rewrite decide_True by (by rewrite ne_text).
    rewrite decide_True by congruence. done.
Qed.

Lemma Sorted_weaken {A} (R R' : relation A) l :
  Sorted R l -> (∀ x y, x ∈ l -> y ∈ l -> R x y -> R' x y) -> Sorted R' l.
Proof.
  induction 1 as [| x l Hs IH Hhd]; intros HR; constructor.
  - apply IH. intros a b Ha Hb. apply HR; by right.
  - destruct Hhd as [| y l Hxy]; constructor.
    apply HR; [left | right; left | done].
Qed.

Lemma filter_none {A} (P : A -> Prop) `{!∀ x, Decision (P x)} (l : list A) :
  (∀ x, x ∈ l -> ¬ P x) -> filter P l = [].
Proof.
  induction l as [| x l IH]; [done|]. intros Hl.
  rewrite filter_cons_False by (apply Hl; left). apply IH.
  intros y Hy. apply Hl. by right.
Qed.

Lemma cell_record_date data : cell (record_dict data) "date" = Transform.date data.
Proof. reflexivity. Qed.



Lemma load_to_csv_text data existing te fault d :
  Transform.date data = VStr d ->
  "date" ∈ columns existing ->
  text_dates (rows existing) ->
  load_to_csv data (ReadReturns existing) te fault
  = to_csv
      (mk_frame
         (columns existing
            ++ filter (fun c => c ∉ columns existing) record_columns)
         (sort_values_date_descending
            (filter (fun r => cell r "date" ≠ VStr d) (rows existing)
               ++ [record_dict data])))
      fault
  ∧ text_dates (filter (fun r => cell r "date" ≠ VStr d) (rows existing)
                  ++ [record_dict data]).
Proof.
  intros Hd Hcol Htext.
  assert (Hall : text_dates
            (filter (fun r => cell r "date" ≠ VStr d) (rows existing)
               ++ [record_dict data])).
  { intros r. rewrite elem_of_app, list_elem_of_filter, list_elem_of_singleton.
    intros [[_ Hr] | ->]; [by apply Htext|].
    exists d. by rewrite cell_record_date. }
  split; [|done].
  unfold load_to_csv. rewrite bool_decide_eq_true_2 by done.
  cbv zeta. unfold concat, DataFrame. cbn [rows columns].
  rewrite Hd, kept_text_dates by done.
  change (mixed ((fun r => cell r "date") <$> ?l)) with (mixed (dates l)).
  by rewrite text_dates_not_mixed.
Qed.

(** X22.  One load on a file whose dates [pd.read_csv] returned as texts,
    for a record with a text date, when nothing fails in between: the
    frame written has the columns of the file, then those only the record
    has; its rows are the rows read whose date differs from the record's,
    and the record, each as often as before; they are ordered from the
    newest date to the oldest; the record is the only row of its date; and
    dates that were unique in the file are unique in the frame written. *)
Theorem snapshot_keeps_unique_dates
    (data : Transform.transformed_data) (existing : frame)
    (type_error d : string) :
  Transform.date data = VStr d ->
  "date" ∈ columns existing ->
  text_dates (rows existing) ->
  ∃ out,
    load_to_csv data (ReadReturns existing) type_error None
    = (Return tt, Wrote out)
    ∧ columns out
      = (columns existing
           ++ filter (fun c => c ∉ columns existing) record_columns)%list
    ∧ rows out
      ≡ₚ (filter (fun r => cell r "date" ≠ VStr d) (rows existing)
            ++ [record_dict data])%list
    ∧ Sorted not_older (rows out)
    ∧ filter (fun r => cell r "date" = VStr d) (rows out) = [record_dict data]
    ∧ (NoDup (dates (rows existing)) -> NoDup (dates (rows out))).
Proof.
  intros Hd Hcol Htext.
  destruct (load_to_csv_text data existing type_error None d Hd Hcol Htext)
    as [-> Hall].
  set (kept := filter (fun r => cell r "date" ≠ VStr d) (rows existing))
    in *.
  eexists. split; [reflexivity|]. cbn [rows columns].
  pose proof (sort_values_permutation (kept ++ [record_dict data])) as Hperm.
  split; [done|]. split; [done|]. split; [|split].
  - apply (Sorted_weaken (flip date_le)); [by apply sort_values_sorted|].
    intros x y Hx Hy Hxy. rewrite Hperm in Hx, Hy.
    destruct (Hall x Hx) as [s Hs], (Hall y Hy) as [t Ht].
    exists s, t. split; [done|]. split; [done|].
    unfold flip, date_le in Hxy. by rewrite Hs, Ht in Hxy.
  - apply Permutation_singleton_r. rewrite Hperm, filter_app.
    rewrite filter_cons_True by (by rewrite cell_record_date).
    rewrite filter_none; [done|]. intros r Hr.
    apply list_elem_of_filter in Hr. by destruct Hr.
  - intros Hnd. unfold dates. rewrite Hperm, fmap_app. apply NoDup_app.
    split; [|split].
    + apply (sublist_NoDup _ _ Hnd), fmap_sublist, sublist_filter.
    + intros v Hv. simpl. rewrite list_elem_of_singleton, cell_record_date, Hd.
      intros ->. apply list_elem_of_fmap in Hv as (r & Hr1 & Hr2).
      apply list_elem_of_filter in Hr2. destruct Hr2 as [Hr2 _]. by rewrite <- Hr1 in Hr2.
    + apply NoDup_singleton.
Qed.


Lemma snapshot_keeps_unique_dates_witness :
  ∃ out,
    load_to_csv MoreSamples.today (ReadReturns MoreSamples.yesterday_as_read)
      MoreSamples.type_error_text None
    = (Return tt, Wrote out)
    ∧ columns out
      = (columns MoreSamples.yesterday_as_read
           ++ filter (fun c => c ∉ columns MoreSamples.yesterday_as_read)
                record_columns)%list
    ∧ rows out
      ≡ₚ (filter (fun r => cell r "date" ≠ VStr "2025-11-13")
            (rows MoreSamples.yesterday_as_read)
            ++ [record_dict MoreSamples.today])%list
    ∧ Sorted not_older (rows out)
    ∧ filter (fun r => cell r "date" = VStr "2025-11-13") (rows out)
      = [record_dict MoreSamples.today]
    ∧ (NoDup (dates (rows MoreSamples.yesterday_as_read)) ->
       NoDup (dates (rows out))).
Proof.
  apply (snapshot_keeps_unique_dates MoreSamples.today
           MoreSamples.yesterday_as_read MoreSamples.type_error_text
           "2025-11-13").
  - reflexivity.
  - apply (bool_decide_unpack _). reflexivity.
  - intros r Hr. apply list_elem_of_singleton in Hr as ->.
    exists "2025-11-12". reflexivity.
Defined.

Lemma to_csv_raised df fault :
  raised (to_csv df fault).1 = true ↔ fault ≠ None.
Proof. destruct fault as [[e | e | e]|]; simpl; split; done. Qed.


Lemma number_date_is_kept data d z r df :
  Transform.date data = VStr d -> r ∈ df -> cell r "date" = VInt z ->
  mixed (dates (filter (fun r => ne (cell r "date") (Transform.date data) = true) df
                  ++ [record_dict data])) = true.
Proof.
  intros Hd Hr Hz. unfold mixed. apply andb_true_intro. split.
  - apply existsb_exists. exists (VStr d). split; [|done].
    apply list_elem_of_In. unfold dates. rewrite fmap_app, elem_of_app.
    right. simpl. rewrite cell_record_date, Hd. left.
  - apply existsb_exists. exists (VInt z). split; [|done].
    apply list_elem_of_In. unfold dates. rewrite fmap_app, elem_of_app.
    left. apply list_elem_of_fmap. exists r. split; [done|].
    apply list_elem_of_filter. split; [|done]. by rewrite Hz, Hd.
Qed.

Lemma load_to_csv_read data df te fault :
  "date" ∈ columns df ->
  load_to_csv data (ReadReturns df) te fault
  = let kept := filter (fun r => ne (cell r "date") (Transform.date data) = true)
                  (rows df) in
    if mixed (dates (kept ++ [record_dict data]))
    then (Raise (csv_failed te), Untouched)
    else to_csv
           (mk_frame
              (columns df ++ filter (fun c => c ∉ columns df) record_columns)
              (sort_values_date_descending (kept ++ [record_dict data])))
           fault.
Proof.
  intros H. unfold load_to_csv. by rewrite bool_decide_eq_true_2.
Qed.

(** X12.  When a try of the CSV load raises.  It raises exactly when there
    is a file and [pd.read_csv] raises, or the frame read has no column
    [date], or the dates to be sorted hold a text and a number, or writing
    the file or looking at it afterwards fails.  In the first three cases
    the file is left as it was and the exception carries the text of the
    cause after the words CSV load failed; the third case is met by every
    file in which a date was read as a number, when the record has a text
    date.  A run whose CSV load raises on each try ends with that task
    failed after three tries, the table in PostgreSQL loaded all the same,
    and neither versioning task started. *)
Theorem csv_load_raises_iff :
  (∀ data file te fault,
     raised (load_to_csv data file te fault).1 = true
     ↔ (∃ e, file = ReadRaises e)
       ∨ (∃ df, file = ReadReturns df ∧ "date" ∉ columns df)
       ∨ (∃ df, file = ReadReturns df ∧ "date" ∈ columns df
               ∧ mixed (dates
                   (filter (fun r => ne (cell r "date") (Transform.date data)
                                     = true) (rows df)
                      ++ [record_dict data])) = true)
       ∨ fault ≠ None)
  ∧ (∀ data e te fault,
       load_to_csv data (ReadRaises e) te fault
       = (Raise (mk_exn Exception ("CSV load failed: " ++ str e)),
          Untouched))
  ∧ (∀ data df te fault, "date" ∉ columns df ->
       load_to_csv data (ReadReturns df) te fault
       = (Raise (mk_exn Exception "CSV load failed: 'date'"), Untouched))
  ∧ (∀ data df te fault d r z,
       "date" ∈ columns df -> Transform.date data = VStr d ->
       r ∈ rows df -> cell r "date" = VInt z ->
       load_to_csv data (ReadReturns df) te fault
       = (Raise (mk_exn Exception ("CSV load failed: " ++ te)), Untouched))
  ∧ (∀ (b : Dag.behaviour) data file te fault,
       (∀ n, b Dag.load_csv_task n
             = negb (raised (load_to_csv data file te fault).1)) ->
       raised (load_to_csv data file te fault).1 = true ->
       Dag.state_of (Dag.execute b) Dag.transform_task = Some Dag.success ->
       Dag.execute b Dag.load_csv_task = Some (Dag.failed, 3)
       ∧ Dag.execute b Dag.load_postgres_task
         = Some (Dag.run_task b Dag.load_postgres_task)
       ∧ Dag.execute b Dag.dvc_task = Some (Dag.upstream_failed, 0)
       ∧ Dag.execute b Dag.git_task = Some (Dag.upstream_failed, 0)
       ∧ Dag.dag_run_state (Dag.execute b) = Dag.failed).
Proof.
  split; [|split; [|split; [|split]]].
  - intros data [| e | df] te fault.
    + change (load_to_csv data NoFile te fault)
        with (to_csv (DataFrame data) fault).
      rewrite to_csv_raised. split; [auto|].
      intros [[e ?] | [(df & ? & _) | [(df & ? & _) | ?]]]; done.
    + split; [eauto|done].
    + destruct (decide ("date" ∈ columns df)) as [Hin | Hout].
      * rewrite load_to_csv_read by done. cbv zeta.
        destruct (mixed _) eqn:Hmixed.
        -- split; [|done]. intros _. right. right. left. eauto.
        -- rewrite to_csv_raised. split; [auto|].
           intros [[e ?] | [(df' & [= <-] & ?) | [(df' & [= <-] & _ & Hm) | ?]]];
             try done. by rewrite Hm in Hmixed.
      * unfold load_to_csv. rewrite bool_decide_eq_false_2 by done.
        split; [|done]. intros _. right. left. eauto.
  - done.
  - intros data df te fault Hout. unfold load_to_csv.
    by rewrite bool_decide_eq_false_2.
  - intros data df te fault d r z Hin Hd Hr Hz.
    rewrite load_to_csv_read by done. cbv zeta.
    by rewrite (number_date_is_kept data d z r (rows df)).
  - intros b data file te fault Hb Hraised Htr.
    assert (Hrun : Dag.run_task b Dag.load_csv_task = (Dag.failed, 3)).
    { unfold Dag.run_task. apply (run_tries_always_failing _ 1 2).
      intros k. by rewrite Hb, Hraised. }
    revert Htr. rewrite dag_run_state_git. unfold Dag.state_of.
    rewrite !execute_closed_form. cbv zeta. rewrite Hrun.
    destruct (run_task_cases b Dag.extract_task)
      as (st1 & n1 & -> & [-> | ->] & _);
    destruct (run_task_cases b Dag.transform_task)
      as (st2 & n2 & -> & [-> | ->] & _); simpl; try done.
    intros _. rewrite !andb_false_r. simpl. done.
Qed.

Lemma csv_load_raises_iff_witness :
  load_to_csv MoreSamples.today (ReadReturns MoreSamples.numbered_file)
    MoreSamples.type_error_text None
  = (Raise (mk_exn Exception
       "CSV load failed: '<' not supported between instances of 'str' and 'int'"),
     Untouched)
  ∧ Dag.execute MoreSamples.unsortable_file_run Dag.load_csv_task
    = Some (Dag.failed, 3)
  ∧ Dag.execute MoreSamples.unsortable_file_run Dag.load_postgres_task
    = Some (Dag.run_task MoreSamples.unsortable_file_run
              Dag.load_postgres_task)
  ∧ Dag.execute MoreSamples.unsortable_file_run Dag.dvc_task
    = Some (Dag.upstream_failed, 0)
  ∧ Dag.execute MoreSamples.unsortable_file_run Dag.git_task
    = Some (Dag.upstream_failed, 0)
  ∧ Dag.dag_run_state (Dag.execute MoreSamples.unsortable_file_run)
    = Dag.failed.
Proof.
  split.
  - apply (proj1 (proj2 (proj2 (proj2 csv_load_raises_iff)))
             MoreSamples.today MoreSamples.numbered_file
             MoreSamples.type_error_text None "2025-11-13"
             (<["date" := VInt 20251112]>
                (record_dict MoreSamples.yesterday)) 20251112%Z).
    + apply (bool_decide_unpack _). reflexivity.
    + reflexivity.
    + apply list_elem_of_singleton. reflexivity.
    + reflexivity.
  - apply (proj2 (proj2 (proj2 (proj2 csv_load_raises_iff)))
             MoreSamples.unsortable_file_run MoreSamples.today
             (ReadReturns MoreSamples.numbered_file)
             MoreSamples.type_error_text None).
    + intros n. reflexivity.
    + reflexivity.
    + reflexivity.
Defined.



(** C1, where the code departs from it: the load does not keep the prior
    rows as they were.  For a payload without [hdurl] the transformer puts
    in the text N/A, which is a value to the quality checks and to
    PostgreSQL but one of the markers [pd.read_csv] reads as missing.  So
    the row the load of 12 November wrote is read back by the load of 13
    November with a missing [hdurl] and written out again with an empty
    field.  And on a file whose dates were read as numbers, the load of a
    record with a text date raises and writes nothing. *)
Theorem prior_rows_are_not_kept :
  (∀ raw_data now, raw_data !! "hdurl" = None ->
     Transform.hdurl (Transform.select_fields raw_data now) = VStr "N/A"
     ∧ Transform.isna (Transform.hdurl (Transform.select_fields raw_data now))
       = false
     ∧ reads_as_missing
         (Transform.hdurl (Transform.select_fields raw_data now)) = true)
  ∧ load_to_csv MoreSamples.yesterday NoFile MoreSamples.type_error_text None
    = (Return tt, Wrote (DataFrame MoreSamples.yesterday))
  ∧ (∃ old,
       load_to_csv MoreSamples.today
         (ReadReturns MoreSamples.yesterday_as_read)
         MoreSamples.type_error_text None
       = (Return tt,
          Wrote (mk_frame record_columns
                   [record_dict MoreSamples.today; old]))
       ∧ cell old "date" = cell (record_dict MoreSamples.yesterday) "date"
       ∧ cell (record_dict MoreSamples.yesterday) "hdurl" = VStr "N/A"
       ∧ cell old "hdurl" = VNaN
       ∧ field (cell old "hdurl") = "")
  ∧ load_to_csv MoreSamples.today (ReadReturns MoreSamples.numbered_file)
      MoreSamples.type_error_text None
    = (Raise (mk_exn Exception
         "CSV load failed: '<' not supported between instances of 'str' and 'int'"),
       Untouched).
Proof.
  split; [|split; [|split]].
  - intros raw_data now H. simpl. unfold get_default. rewrite H. done.
  - reflexivity.
  - eexists. split; [vm_compute; reflexivity|]. done.
  - vm_compute. reflexivity.
Qed.

Lemma prior_rows_are_not_kept_witness :
  reads_as_missing
    (Transform.hdurl
       (Transform.select_fields Samples.only_date "2025-11-13T00:00:05"))
  = true.
Proof.
  apply (proj1 prior_rows_are_not_kept Samples.only_date
           "2025-11-13T00:00:05").
  reflexivity.
Defined.

End CsvLoad.

(** ** A record without a title, from the payload to the two sinks *)

Section TitleFlow.



End TitleFlow.
